(** * p360a: baseline / trend decision engine

    A shallow embedding of [src/types.ts], [src/baselineCalculator.ts],
    [src/decisionEngine.ts] and the mock data set, followed by the
    properties the specification states about them.

    Numbers.  A TypeScript [number] is a binary64 value.  The first
    embedding carries the readings as the exact rationals [Q] they denote:
    that is what the comparisons, the sort, the window, the trend rule and
    the error handling look at, and the properties of those are stated on
    it.  The results of the arithmetic (the mean in the median, the
    tolerance band of the classifier) are rounded by the program; the
    second embedding, [Double], repeats the two files over the kernel's
    binary64 numbers, and the properties that speak about those results are
    stated on it.  Array lengths and indices are integers ([Z]), so that
    [length - 2] can go below zero the way it does in JavaScript.
    [null] is [None]. *)

From Stdlib Require Import ZArith QArith Qabs List String Bool Lia Lqa.
From Stdlib Require Import Sorting.Permutation Sorting.Sorted Sorting.Mergesort.
From Stdlib Require Import Orders DecimalString Qround Floats.
Import ListNotations.

Local Open Scope Z_scope.

(* ================================================================= *)
(** ** Thrown errors as values *)

(** [throw new Error(msg)] and the [TypeError] the runtime raises when a
    property of [undefined] is read. *)
Inductive JsError : Type :=
| Error (message : string)
| TypeError (message : string).

Definition result (A : Type) : Type := (JsError + A)%type.

Definition ret {A : Type} (a : A) : result A := inr a.
Definition throw {A : Type} (e : JsError) : result A := inl e.

Definition bind {A B : Type} (c : result A) (k : A -> result B) : result B :=
  match c with
  | inl e => inl e
  | inr a => k a
  end.

Notation "x <- c ;; k" := (bind c (fun x => k))
  (at level 61, c at next level, right associativity).

(** The two errors of the engine, named as the specification names them. *)
Definition EmptyDataset : JsError := Error "No data available.".
Definition InsufficientHistory : JsError :=
  Error "At least 2 days of data required.".

(* ================================================================= *)
(** ** JavaScript arrays *)

Module Array.

Definition length {A : Type} (arr : list A) : Z := Z.of_nat (List.length arr).

(** [arr[i]]: [undefined] ([None]) outside [0 .. length-1]. *)
Definition get {A : Type} (arr : list A) (i : Z) : option A :=
  if i <? 0 then None else nth_error arr (Z.to_nat i).

(** [arr[i].field]: reading a property of [undefined] throws. *)
Definition element {A : Type} (arr : list A) (i : Z) : result A :=
  match get arr i with
  | Some a => ret a
  | None => throw (TypeError "Cannot read properties of undefined")
  end.

(** [arr.slice(start)]: a negative [start] counts from the end and is
    clamped at the first element; a positive one is clamped at the end. *)
Definition slice {A : Type} (arr : list A) (start : Z) : list A :=
  let len := length arr in
  let k := if start <? 0 then Z.max (len + start) 0 else Z.min start len in
  skipn (Z.to_nat k) arr.

(** [arr.filter(v => v !== null)] on an array of nullable values. *)
Fixpoint filterNotNull {A : Type} (arr : list (option A)) : list A :=
  match arr with
  | [] => []
  | Some v :: rest => v :: filterNotNull rest
  | None :: rest => filterNotNull rest
  end.

End Array.

(** [arr.sort((a, b) => a - b)]: the stable ascending sort of numbers. *)
Module NumberOrder <: TotalLeBool.
Definition t : Type := Q.
Definition leb (a b : Q) : bool := Qle_bool a b.
Lemma leb_total : forall a b, leb a b = true \/ leb b a = true.
Proof.
  intros a b. unfold leb. rewrite !Qle_bool_iff.
  destruct (Qlt_le_dec a b) as [Hlt | Hle]; [left; apply Qlt_le_weak|right]; assumption.
Qed.
End NumberOrder.

Module NumberSort := Sort NumberOrder.

(* ================================================================= *)
(** ** types.ts *)

Module DailyMetrics.
Record t : Type := mk {
  date : string;           (* YYYY-MM-DD *)
  hrv : option Q;
  sleep : option Q;
  load : option Q
}.
End DailyMetrics.

Inductive MetricComparison : Type := lower | within | higher.

Inductive DecisionPhase : Type := OBSERVE | CONSIDER_ADJUSTMENT.

(** [keyof ComparisonResult]. *)
Inductive MetricKey : Type := key_hrv | key_sleep | key_load.

Module ComparisonResult.
Record t : Type := mk {
  hrv : option MetricComparison;
  sleep : option MetricComparison;
  load : option MetricComparison
}.

(** [comparison[metric]]. *)
Definition get (c : t) (metric : MetricKey) : option MetricComparison :=
  match metric with
  | key_hrv => hrv c
  | key_sleep => sleep c
  | key_load => load c
  end.
End ComparisonResult.

Module Baseline.
Record t : Type := mk {
  hrv : Q;
  sleep : Q;
  load : Q
}.
End Baseline.

(** The object [determineDecisionPhase] returns. *)
Module Decision.
Record t : Type := mk {
  phase : DecisionPhase;
  comparison : ComparisonResult.t;
  reason : string
}.
End Decision.

(* ================================================================= *)
(** ** baselineCalculator.ts *)

Local Open Scope Q_scope.

(** The local [median] of [calculateBaseline]: [null] on the empty array,
    otherwise the element at [mid], or the half-sum of the elements at
    [mid - 1] and [mid].  Both indices are inside a non-empty array
    ([median_indices_in_range] below), so the filler of [nth] is never
    read. *)
Definition median (arr : list Q) : option Q :=
  if (Array.length arr =? 0)%Z then None
  else
    let mid := (Array.length arr / 2)%Z in
    if (Array.length arr mod 2 =? 0)%Z
    then Some ((nth (Z.to_nat (mid - 1)) arr 0 + nth (Z.to_nat mid) arr 0) / 2)
    else Some (nth (Z.to_nat mid) arr 0).

(** [x ?? d]. *)
Definition nullish {A : Type} (x : option A) (d : A) : A :=
  match x with
  | Some v => v
  | None => d
  end.

(** [metrics.slice(-14)] followed by the clamp to [7 .. 14] and the second
    slice: the records the medians are taken over. *)
Definition recentMetrics (metrics : list DailyMetrics.t) : list DailyMetrics.t :=
  Array.slice metrics (-14).

Definition count (metrics : list DailyMetrics.t) : Z :=
  Z.max 7 (Z.min 14 (Array.length (recentMetrics metrics))).

Definition values (metrics : list DailyMetrics.t) : list DailyMetrics.t :=
  Array.slice (recentMetrics metrics) (- count metrics).

(** [values.map(field).filter(v => v !== null).sort((a, b) => a - b)]. *)
Definition sortedValues (field : DailyMetrics.t -> option Q)
    (vals : list DailyMetrics.t) : list Q :=
  NumberSort.sort (Array.filterNotNull (map field vals)).

Definition calculateBaseline (metrics : list DailyMetrics.t) : result Baseline.t :=
  if (Array.length metrics =? 0)%Z then throw EmptyDataset
  else
    let vals := values metrics in
    let hrvValues := sortedValues DailyMetrics.hrv vals in
    let sleepValues := sortedValues DailyMetrics.sleep vals in
    let loadValues := sortedValues DailyMetrics.load vals in
    ret {| Baseline.hrv := nullish (median hrvValues) 0;
           Baseline.sleep := nullish (median sleepValues) 0;
           Baseline.load := nullish (median loadValues) 0 |}.

Definition defaultTolerancePercent : Q := 5.

Definition compareToBaseline (value : option Q) (baseline : Q)
    (tolerancePercent : Q) : option MetricComparison :=
  match value with
  | None => None
  | Some v =>
      let tolerance := baseline * (tolerancePercent / 100) in
      let lowerBound := baseline - tolerance in
      let upperBound := baseline + tolerance in
      if Qlt_le_dec v lowerBound then Some lower
      else if Qlt_le_dec upperBound v then Some higher
      else Some within
  end.

(* ================================================================= *)
(** ** decisionEngine.ts *)

Local Open Scope Z_scope.

Definition MetricComparison_eqb (a b : MetricComparison) : bool :=
  match a, b with
  | lower, lower | within, within | higher, higher => true
  | _, _ => false
  end.

(** [x !== null]. *)
Definition notNull {A : Type} (x : option A) : bool :=
  match x with
  | Some _ => true
  | None => false
  end.

(** [x === 'lower'] and the like, on a nullable verdict. *)
Definition strictEq (x : option MetricComparison) (c : MetricComparison) : bool :=
  match x with
  | Some v => MetricComparison_eqb v c
  | None => false
  end.

(** The object literal built for [todayComparison] and, with the other
    record, for [yesterdayComparison]. *)
Definition dayComparison (day : DailyMetrics.t) (baseline : Baseline.t)
    : ComparisonResult.t :=
  {| ComparisonResult.hrv :=
       compareToBaseline (DailyMetrics.hrv day) (Baseline.hrv baseline)
         defaultTolerancePercent;
     ComparisonResult.sleep :=
       compareToBaseline (DailyMetrics.sleep day) (Baseline.sleep baseline)
         defaultTolerancePercent;
     ComparisonResult.load :=
       compareToBaseline (DailyMetrics.load day) (Baseline.load baseline)
         defaultTolerancePercent |}.

Definition metricsToCheck : list MetricKey := [key_hrv; key_sleep; key_load].

(** The callback of the two [filter] calls, for the direction [dir]. *)
Definition consecutiveIn (dir : MetricComparison)
    (todayComparison yesterdayComparison : ComparisonResult.t)
    (metric : MetricKey) : bool :=
  notNull (ComparisonResult.get todayComparison metric) &&
  notNull (ComparisonResult.get yesterdayComparison metric) &&
  strictEq (ComparisonResult.get todayComparison metric) dir &&
  strictEq (ComparisonResult.get yesterdayComparison metric) dir.

Definition consecutiveLower (todayComparison yesterdayComparison : ComparisonResult.t) : Z :=
  Array.length
    (filter (consecutiveIn lower todayComparison yesterdayComparison) metricsToCheck).

Definition consecutiveHigher (todayComparison yesterdayComparison : ComparisonResult.t) : Z :=
  Array.length
    (filter (consecutiveIn higher todayComparison yesterdayComparison) metricsToCheck).

(** [`${count}`] for an integer. *)
Definition numberToString (n : Z) : string :=
  NilZero.string_of_int (Z.to_int n).

Definition recoveryReason (n : Z) : string :=
  (numberToString n ++
   " recovery signals have been outside baseline for 2 consecutive days.")%string.

Definition loadReason (n : Z) : string :=
  (numberToString n ++
   " load signals have been outside baseline for 2 consecutive days.")%string.

(** The final [if] of [determineDecisionPhase] and the two [return]s, as a
    function of the two counts and of today's comparison. *)
Definition phaseDecision (consecutiveLower consecutiveHigher : Z)
    (todayComparison : ComparisonResult.t) : Decision.t :=
  if (2 <=? consecutiveLower) || (2 <=? consecutiveHigher) then
    let direction := if 2 <=? consecutiveLower then lower else higher in
    let count :=
      if MetricComparison_eqb direction lower
      then consecutiveLower else consecutiveHigher in
    let reason :=
      if MetricComparison_eqb direction lower
      then recoveryReason count else loadReason count in
    {| Decision.phase := CONSIDER_ADJUSTMENT;
       Decision.comparison := todayComparison;
       Decision.reason := reason |}
  else
    {| Decision.phase := OBSERVE;
       Decision.comparison := todayComparison;
       Decision.reason := "Observing current state." |}.

Definition determineDecisionPhase (metrics : list DailyMetrics.t)
    : result Decision.t :=
  if Array.length metrics <? 2 then throw InsufficientHistory
  else
    baseline <- calculateBaseline metrics ;;
    today <- Array.element metrics (Array.length metrics - 1) ;;
    yesterday <- Array.element metrics (Array.length metrics - 2) ;;
    let todayComparison := dayComparison today baseline in
    let yesterdayComparison := dayComparison yesterday baseline in
    ret (phaseDecision
           (consecutiveLower todayComparison yesterdayComparison)
           (consecutiveHigher todayComparison yesterdayComparison)
           todayComparison).

(* ================================================================= *)
(** ** The mock data set *)

Local Open Scope Q_scope.

Definition day (d : string) (h s l : Q) : DailyMetrics.t :=
  {| DailyMetrics.date := d; DailyMetrics.hrv := Some h;
     DailyMetrics.sleep := Some s; DailyMetrics.load := Some l |}.

Definition mockDailyMetrics : list DailyMetrics.t :=
  [ day "2024-01-01" 45 7.5 12.5;
    day "2024-01-02" 48 8.0 14.2;
    day "2024-01-03" 46 7.8 13.8;
    day "2024-01-04" 50 8.2 11.5;
    day "2024-01-05" 47 7.9 15.1;
    day "2024-01-06" 49 8.1 13.2;
    day "2024-01-07" 48 8.0 14.0;
    day "2024-01-08" 46 7.7 12.8;
    day "2024-01-09" 51 8.3 11.0;
    day "2024-01-10" 47 7.6 14.5;
    day "2024-01-11" 42 7.2 16.0;
    day "2024-01-12" 40 7.0 16.5;
    day "2024-01-13" 38 6.8 17.0 ].

(* ================================================================= *)
(** ** The specification's own notions *)

(** The last [k] elements of a sequence, taken from its end. *)
Definition trailing {A : Type} (k : nat) (l : list A) : list A :=
  rev (firstn k (rev l)).

(** "The most recent [min(14, N)] records". *)
Definition trailingWindow (metrics : list DailyMetrics.t) : list DailyMetrics.t :=
  trailing (Nat.min 14 (List.length metrics)) metrics.

(** The window the code would take without the lower clamp to 7. *)
Definition valuesWithoutClamp (metrics : list DailyMetrics.t) : list DailyMetrics.t :=
  Array.slice (recentMetrics metrics)
    (- Z.min 14 (Array.length (recentMetrics metrics))).

(** The present readings of one metric in a window, in window order. *)
Definition presentValues (field : DailyMetrics.t -> option Q)
    (vals : list DailyMetrics.t) : list Q :=
  Array.filterNotNull (map field vals).

(** The statistical median of a sorted sequence: its middle element when
    the count is odd, the mean of the two central ones when it is even. *)
Inductive medianOfSorted (s : list Q) : Q -> Prop :=
| medianOdd (m : Q) :
    Nat.odd (List.length s) = true ->
    nth_error s (List.length s / 2)%nat = Some m ->
    medianOfSorted s m
| medianEven (a b : Q) :
    Nat.even (List.length s) = true ->
    nth_error s (List.length s / 2 - 1)%nat = Some a ->
    nth_error s (List.length s / 2)%nat = Some b ->
    medianOfSorted s ((a + b) / 2).

(** [m] is a statistical median of the readings [xs]: the median of an
    ascending rearrangement of [xs]. *)
Definition statisticalMedian (xs : list Q) (m : Q) : Prop :=
  exists s, Permutation xs s /\ Sorted Qle s /\ medianOfSorted s m.

(** "Each of the three metrics": the reading of a metric in a record and
    the baseline value kept for it. *)
Definition reading (metric : MetricKey) : DailyMetrics.t -> option Q :=
  match metric with
  | key_hrv => DailyMetrics.hrv
  | key_sleep => DailyMetrics.sleep
  | key_load => DailyMetrics.load
  end.

Definition baselineFor (metric : MetricKey) : Baseline.t -> Q :=
  match metric with
  | key_hrv => Baseline.hrv
  | key_sleep => Baseline.sleep
  | key_load => Baseline.load
  end.

(** The three baseline values over a window [vals]: per metric, the median
    of the sorted present readings, or [0] when there is none. *)
Definition mediansOver (vals : list DailyMetrics.t) : Baseline.t :=
  {| Baseline.hrv := nullish (median (sortedValues DailyMetrics.hrv vals)) 0;
     Baseline.sleep := nullish (median (sortedValues DailyMetrics.sleep vals)) 0;
     Baseline.load := nullish (median (sortedValues DailyMetrics.load vals)) 0 |}.

(** How many readings of [l] are strictly below [x], and how many are at
    most [x]: the rank of [x] among them, however they are arranged. *)
Definition countBelow (x : Q) (l : list Q) : nat :=
  List.length (filter (fun y => negb (Qle_bool x y)) l).

Definition countAtMost (x : Q) (l : list Q) : nat :=
  List.length (filter (fun y => Qle_bool y x) l).

(** The decision taken with the two directions checked in the other
    order: higher first, then lower. *)
Definition phaseDecisionHigherFirst (consecutiveLower consecutiveHigher : Z)
    (todayComparison : ComparisonResult.t) : Decision.t :=
  if ((2 <=? consecutiveHigher) || (2 <=? consecutiveLower))%Z then
    if (2 <=? consecutiveHigher)%Z then
      {| Decision.phase := CONSIDER_ADJUSTMENT;
         Decision.comparison := todayComparison;
         Decision.reason := loadReason consecutiveHigher |}
    else
      {| Decision.phase := CONSIDER_ADJUSTMENT;
         Decision.comparison := todayComparison;
         Decision.reason := recoveryReason consecutiveLower |}
  else
    {| Decision.phase := OBSERVE;
       Decision.comparison := todayComparison;
       Decision.reason := "Observing current state." |}.

(* ================================================================= *)
(** ** Further notions used to describe the engine *)

(** The three readings of a record, without its date. *)
Definition readings (m : DailyMetrics.t) : option Q * option Q * option Q :=
  (DailyMetrics.hrv m, DailyMetrics.sleep m, DailyMetrics.load m).

(** Verdicts ordered from [lower] to [higher]. *)
Definition verdictRank (c : MetricComparison) : Z :=
  match c with
  | lower => 0
  | within => 1
  | higher => 2
  end.

(** How many readings of [l] are strictly above [x]. *)
Definition countAbove (x : Q) (l : list Q) : nat :=
  List.length (filter (fun y => negb (Qle_bool y x)) l).


(** The metrics that have a reading on both of two days. *)
Definition presentOnBoth (yesterday today : DailyMetrics.t) : list MetricKey :=
  filter (fun metric => notNull (reading metric today) &&
                        notNull (reading metric yesterday)) metricsToCheck.

(* ================================================================= *)
(** ** App.tsx: what the page shows for a verdict *)

Module App.

Definition getComparisonIcon (comparison : option MetricComparison) : string :=
  match comparison with
  | None => "—"
  | Some lower => "↓"
  | Some higher => "↑"
  | Some within => "→"
  end.

Definition getComparisonText (comparison : option MetricComparison) : string :=
  match comparison with
  | None => "No data"
  | Some lower => "Below baseline"
  | Some higher => "Above baseline"
  | Some within => "Within baseline"
  end.

Definition getMetricLabel (metric : MetricKey) : string :=
  match metric with
  | key_hrv => "HRV"
  | key_sleep => "Sleep"
  | key_load => "Load"
  end.

(** The colour class chosen for the icon of a row. *)
Definition iconColor (comparison : option MetricComparison) : string :=
  if strictEq comparison lower then "text-blue-500"
  else if strictEq comparison higher then "text-red-500"
  else "text-slate-400".

End App.

(* ================================================================= *)
(** ** whoopAdapter.ts *)

(** The raw responses.  A field the adapter guards with [?.], a null test
    or a falsy test is optional here, whatever its declared type says;
    [None] stands for both [null] and [undefined]. *)

Module WhoopRecoveryResponse.
Record score_t : Type := mkScore {
  recovery_score : option Q;
  resting_heart_rate : option Q;
  hrv_rmssd_milli : option Q;
  spo2_percentage : option Q;
  skin_temp_celsius : option Q
}.
Record t : Type := mk {
  id : Z;
  user_id : Z;
  cycle_id : Z;
  sleep_id : Z;
  score : score_t;
  created_at : string
}.
End WhoopRecoveryResponse.

Module WhoopSleepResponse.
Record stage_summary_t : Type := mkStageSummary {
  total_sleep_time_milli : option Q;
  total_awake_time_milli : Q;
  total_no_data_time_milli : Q
}.
Record score_t : Type := mkScore {
  stage_summary : option stage_summary_t;
  respiratory_rate : option Q;
  sleep_performance_percentage : option Q;
  sleep_consistency_percentage : option Q;
  sleep_efficiency_percentage : option Q
}.
Record t : Type := mk {
  id : Z;
  user_id : Z;
  created_at : string;
  start : string;
  end_ : string;
  timezone_offset : string;
  nap : bool;
  score : option score_t
}.
End WhoopSleepResponse.

Module WhoopWorkoutResponse.
Record zone_duration_t : Type := mkZoneDuration {
  zone_zero_milli : Q;
  zone_one_milli : Q;
  zone_two_milli : Q;
  zone_three_milli : Q;
  zone_four_milli : Q;
  zone_five_milli : Q
}.
Record score_t : Type := mkScore {
  strain : option Q;
  average_heart_rate : option Q;
  max_heart_rate : option Q;
  kilojoule : option Q;
  percent_recorded : option Q;
  zone_duration : zone_duration_t
}.
Record source_t : Type := mkSource {
  workout_id : option Z;
  device_id : option Z;
  device_type : option string
}.
Record t : Type := mk {
  id : Z;
  user_id : Z;
  created_at : string;
  updated_at : string;
  start : string;
  end_ : string;
  timezone_offset : string;
  score : option score_t;
  sport_id : option Z;
  source : source_t
}.
End WhoopWorkoutResponse.

(** [Math.round]: the nearest integer, halves going up. *)
Definition mathRound (x : Q) : Q := inject_Z (Qfloor (x + (1 # 2))).

(** [Math.max(a, b)]. *)
Definition numberMax (a b : Q) : Q := if Qlt_le_dec a b then b else a.

(** A JavaScript [Map] with string keys: its entries in insertion order, one
    per key.  [update] stands for an assignment to a property of the object
    stored under a key, which the map and every later [get] see. *)
Module JsMap.

Definition t (V : Type) : Type := list (string * V).

Definition has {V : Type} (m : t V) (key : string) : bool :=
  existsb (fun e => String.eqb (fst e) key) m.

Definition get {V : Type} (m : t V) (key : string) : option V :=
  option_map snd (find (fun e => String.eqb (fst e) key) m).

Fixpoint set {V : Type} (m : t V) (key : string) (v : V) : t V :=
  match m with
  | [] => [(key, v)]
  | (k, o) :: rest =>
      if String.eqb k key then (k, v) :: rest else (k, o) :: set rest key v
  end.

Fixpoint update {V : Type} (m : t V) (key : string) (f : V -> V) : t V :=
  match m with
  | [] => []
  | (k, o) :: rest =>
      if String.eqb k key then (k, f o) :: rest else (k, o) :: update rest key f
  end.

Definition values {V : Type} (m : t V) : list V := map snd m.

End JsMap.

(** [arr.sort(compare)] for a comparator that returns a number: the stable
    sort, an element going behind another only when the comparator is
    positive on them. *)
Fixpoint insertBy {A : Type} (compare : A -> A -> Z) (x : A) (l : list A) : list A :=
  match l with
  | [] => [x]
  | y :: rest =>
      if (0 <? compare x y)%Z then y :: insertBy compare x rest
      else x :: y :: rest
  end.

Definition sortBy {A : Type} (compare : A -> A -> Z) (l : list A) : list A :=
  fold_right (insertBy compare) [] l.

Module WhoopAdapter.

Definition extractHRV (recovery : WhoopRecoveryResponse.t) : option Q :=
  match WhoopRecoveryResponse.hrv_rmssd_milli (WhoopRecoveryResponse.score recovery) with
  | None => None
  | Some hrv => Some hrv
  end.

(** [sleep.score?.stage_summary?.total_sleep_time_milli]. *)
Definition totalSleepTime (sleep : WhoopSleepResponse.t) : option Q :=
  match WhoopSleepResponse.score sleep with
  | None => None
  | Some sc =>
      match WhoopSleepResponse.stage_summary sc with
      | None => None
      | Some summary => WhoopSleepResponse.total_sleep_time_milli summary
      end
  end.

Definition extractSleep (sleep : WhoopSleepResponse.t) : option Q :=
  match totalSleepTime sleep with
  | None => None
  | Some milli =>
      if Qeq_bool milli 0 then None
      else
        let hours := (milli / (1000 * 60 * 60))%Q in
        Some (mathRound (hours * 10) / 10)%Q
  end.

(** [w.score?.strain]. *)
Definition workoutStrain (w : WhoopWorkoutResponse.t) : option Q :=
  match WhoopWorkoutResponse.score w with
  | None => None
  | Some sc => WhoopWorkoutResponse.strain sc
  end.

Definition extractLoad (workouts : list WhoopWorkoutResponse.t) : option Q :=
  if (Array.length workouts =? 0)%Z then None
  else
    let strains := Array.filterNotNull (map workoutStrain workouts) in
    match strains with
    | [] => None
    | first :: others => Some (fold_left numberMax others first)
    end.

(** The object literal [{ date, hrv: null, sleep: null, load: null }]. *)
Definition emptyMetrics (date : string) : DailyMetrics.t :=
  {| DailyMetrics.date := date; DailyMetrics.hrv := None;
     DailyMetrics.sleep := None; DailyMetrics.load := None |}.

(** [metrics.hrv = v], [metrics.sleep = v], [metrics.load = v]. *)
Definition assignHrv (v : option Q) (metrics : DailyMetrics.t) : DailyMetrics.t :=
  {| DailyMetrics.date := DailyMetrics.date metrics; DailyMetrics.hrv := v;
     DailyMetrics.sleep := DailyMetrics.sleep metrics;
     DailyMetrics.load := DailyMetrics.load metrics |}.

Definition assignSleep (v : option Q) (metrics : DailyMetrics.t) : DailyMetrics.t :=
  {| DailyMetrics.date := DailyMetrics.date metrics;
     DailyMetrics.hrv := DailyMetrics.hrv metrics; DailyMetrics.sleep := v;
     DailyMetrics.load := DailyMetrics.load metrics |}.

Definition assignLoad (v : option Q) (metrics : DailyMetrics.t) : DailyMetrics.t :=
  {| DailyMetrics.date := DailyMetrics.date metrics;
     DailyMetrics.hrv := DailyMetrics.hrv metrics;
     DailyMetrics.sleep := DailyMetrics.sleep metrics; DailyMetrics.load := v |}.

(** The body shared by the three [forEach] callbacks: create the entry of
    [date] when the map has none, then assign to the object stored there. *)
Definition record (metricsMap : JsMap.t DailyMetrics.t) (date : string)
    (assign : DailyMetrics.t -> DailyMetrics.t) : JsMap.t DailyMetrics.t :=
  let metricsMap :=
    if negb (JsMap.has metricsMap date)
    then JsMap.set metricsMap date (emptyMetrics date)
    else metricsMap in
  JsMap.update metricsMap date assign.

Section Conversion.

(** [formatDate] goes through the host's [Date] parser and local time zone,
    and [localeCompare] through its collation: both are taken as given. *)
Variable formatDate : string -> string.
Variable localeCompare : string -> string -> Z.

Definition processRecoveries (recoveries : list WhoopRecoveryResponse.t)
    (metricsMap : JsMap.t DailyMetrics.t) : JsMap.t DailyMetrics.t :=
  fold_left
    (fun metricsMap recovery =>
       let date := formatDate (WhoopRecoveryResponse.created_at recovery) in
       let hrv := extractHRV recovery in
       record metricsMap date (assignHrv hrv))
    recoveries metricsMap.

Definition processSleeps (sleeps : list WhoopSleepResponse.t)
    (metricsMap : JsMap.t DailyMetrics.t) : JsMap.t DailyMetrics.t :=
  fold_left
    (fun metricsMap sleep =>
       let date := formatDate (WhoopSleepResponse.start sleep) in
       let sleepHours := extractSleep sleep in
       record metricsMap date (assignSleep sleepHours))
    sleeps metricsMap.

(** [workouts] is the record given by its [Object.entries], in their
    order. *)
Definition processWorkouts (workouts : list (string * list WhoopWorkoutResponse.t))
    (metricsMap : JsMap.t DailyMetrics.t) : JsMap.t DailyMetrics.t :=
  fold_left
    (fun metricsMap entry =>
       let '(date, dayWorkouts) := entry in
       let load := extractLoad dayWorkouts in
       record metricsMap date (assignLoad load))
    workouts metricsMap.

Definition toDailyMetrics (recoveries : list WhoopRecoveryResponse.t)
    (sleeps : list WhoopSleepResponse.t)
    (workouts : list (string * list WhoopWorkoutResponse.t))
    : list DailyMetrics.t :=
  let metricsMap : JsMap.t DailyMetrics.t := [] in
  let metricsMap := processRecoveries recoveries metricsMap in
  let metricsMap := processSleeps sleeps metricsMap in
  let metricsMap := processWorkouts workouts metricsMap in
  let metricsArray := JsMap.values metricsMap in
  sortBy (fun a b => localeCompare (DailyMetrics.date a) (DailyMetrics.date b))
    metricsArray.

End Conversion.

End WhoopAdapter.

(** *** Notions used to describe the adapter *)

(** The last element of [l] that satisfies [p]. *)
Fixpoint lastMatching {A : Type} (p : A -> bool) (l : list A) : option A :=
  match l with
  | [] => None
  | x :: rest =>
      match lastMatching p rest with
      | Some y => Some y
      | None => if p x then Some x else None
      end
  end.

(** One pass of the adapter over a list of items, each recorded under its
    key with its assignment: the shape of the three [forEach] loops. *)
Definition recordAll {X : Type} (key : X -> string)
    (assign : X -> DailyMetrics.t -> DailyMetrics.t) (items : list X)
    (metricsMap : JsMap.t DailyMetrics.t) : JsMap.t DailyMetrics.t :=
  fold_left (fun m x => WhoopAdapter.record m (key x) (assign x)) items metricsMap.

(** A field of the object stored under [date], [null] when there is none. *)
Definition fieldAt (field : DailyMetrics.t -> option Q) (date : string)
    (metricsMap : JsMap.t DailyMetrics.t) : option Q :=
  match JsMap.get metricsMap date with
  | Some o => field o
  | None => None
  end.

(** Every entry of the map is stored under its own date. *)
Definition keyedByDate (metricsMap : JsMap.t DailyMetrics.t) : Prop :=
  Forall (fun e => DailyMetrics.date (snd e) = fst e) metricsMap.

(** The map [toDailyMetrics] has built when its three passes are done. *)
Definition builtMap (formatDate : string -> string)
    (recoveries : list WhoopRecoveryResponse.t)
    (sleeps : list WhoopSleepResponse.t)
    (workouts : list (string * list WhoopWorkoutResponse.t))
    : JsMap.t DailyMetrics.t :=
  WhoopAdapter.processWorkouts workouts
    (WhoopAdapter.processSleeps formatDate sleeps
       (WhoopAdapter.processRecoveries formatDate recoveries [])).

(** Every date the three inputs mention, for a given [formatDate]. *)
Definition inputDates (formatDate : string -> string)
    (recoveries : list WhoopRecoveryResponse.t)
    (sleeps : list WhoopSleepResponse.t)
    (workouts : list (string * list WhoopWorkoutResponse.t)) : list string :=
  map (fun r => formatDate (WhoopRecoveryResponse.created_at r)) recoveries ++
  map (fun s => formatDate (WhoopSleepResponse.start s)) sleeps ++
  map fst workouts.

(** A comparator for examples: the order of the character codes. *)
Definition codeCompare (a b : string) : Z :=
  match String.compare a b with
  | Lt => -1
  | Eq => 0
  | Gt => 1
  end.

(** A date formatter for examples: the first ten characters. *)
Definition isoDay (s : string) : string := substring 0 10 s.

(** Small responses for examples. *)
Definition sampleRecovery (created_at : string) (score hrv : option Q)
    : WhoopRecoveryResponse.t :=
  {| WhoopRecoveryResponse.id := 1; WhoopRecoveryResponse.user_id := 7;
     WhoopRecoveryResponse.cycle_id := 1; WhoopRecoveryResponse.sleep_id := 1;
     WhoopRecoveryResponse.score :=
       {| WhoopRecoveryResponse.recovery_score := score;
          WhoopRecoveryResponse.resting_heart_rate := None;
          WhoopRecoveryResponse.hrv_rmssd_milli := hrv;
          WhoopRecoveryResponse.spo2_percentage := None;
          WhoopRecoveryResponse.skin_temp_celsius := None |};
     WhoopRecoveryResponse.created_at := created_at |}.

Definition sampleSleep (start : string) (milli : option Q) : WhoopSleepResponse.t :=
  {| WhoopSleepResponse.id := 1; WhoopSleepResponse.user_id := 7;
     WhoopSleepResponse.created_at := start; WhoopSleepResponse.start := start;
     WhoopSleepResponse.end_ := start; WhoopSleepResponse.timezone_offset := "+00:00";
     WhoopSleepResponse.nap := false;
     WhoopSleepResponse.score :=
       Some {| WhoopSleepResponse.stage_summary :=
                 Some {| WhoopSleepResponse.total_sleep_time_milli := milli;
                         WhoopSleepResponse.total_awake_time_milli := 0%Q;
                         WhoopSleepResponse.total_no_data_time_milli := 0%Q |};
               WhoopSleepResponse.respiratory_rate := None;
               WhoopSleepResponse.sleep_performance_percentage := None;
               WhoopSleepResponse.sleep_consistency_percentage := None;
               WhoopSleepResponse.sleep_efficiency_percentage := None |} |}.

Definition sampleWorkout (start : string) (strain : option Q)
    : WhoopWorkoutResponse.t :=
  {| WhoopWorkoutResponse.id := 1; WhoopWorkoutResponse.user_id := 7;
     WhoopWorkoutResponse.created_at := start;
     WhoopWorkoutResponse.updated_at := start;
     WhoopWorkoutResponse.start := start; WhoopWorkoutResponse.end_ := start;
     WhoopWorkoutResponse.timezone_offset := "+00:00";
     WhoopWorkoutResponse.score :=
       Some {| WhoopWorkoutResponse.strain := strain;
               WhoopWorkoutResponse.average_heart_rate := None;
               WhoopWorkoutResponse.max_heart_rate := None;
               WhoopWorkoutResponse.kilojoule := None;
               WhoopWorkoutResponse.percent_recorded := None;
               WhoopWorkoutResponse.zone_duration :=
                 {| WhoopWorkoutResponse.zone_zero_milli := 0%Q;
                    WhoopWorkoutResponse.zone_one_milli := 0%Q;
                    WhoopWorkoutResponse.zone_two_milli := 0%Q;
                    WhoopWorkoutResponse.zone_three_milli := 0%Q;
                    WhoopWorkoutResponse.zone_four_milli := 0%Q;
                    WhoopWorkoutResponse.zone_five_milli := 0%Q |} |};
     WhoopWorkoutResponse.sport_id := None;
     WhoopWorkoutResponse.source :=
       {| WhoopWorkoutResponse.workout_id := None;
          WhoopWorkoutResponse.device_id := None;
          WhoopWorkoutResponse.device_type := None |} |}.

Definition sampleRecoveries : list WhoopRecoveryResponse.t :=
  [ sampleRecovery "2024-01-02T06:00:00Z" (Some 55%Q) (Some 48%Q);
    sampleRecovery "2024-01-01T06:00:00Z" (Some 60%Q) (Some 45%Q);
    sampleRecovery "2024-01-02T09:00:00Z" (Some 70%Q) (Some 50%Q) ].

Definition sampleSleeps : list WhoopSleepResponse.t :=
  [ sampleSleep "2024-01-01T22:00:00Z" (Some 27000000%Q);
    sampleSleep "2024-01-03T22:30:00Z" (Some 0%Q) ].

Definition sampleWorkouts : list (string * list WhoopWorkoutResponse.t) :=
  [ ("2024-01-02"%string,
     [ sampleWorkout "2024-01-02T10:00:00Z" (Some 12.5%Q);
       sampleWorkout "2024-01-02T18:00:00Z" None;
       sampleWorkout "2024-01-02T19:00:00Z" (Some 14.2%Q) ]) ].

(* ================================================================= *)
(** ** The arithmetic in binary64 *)

(** A TypeScript [number] is an IEEE-754 binary64 value.  The rationals
    above carry the exact values of the readings, which is all the
    comparisons, the sort, the window and the trend rule look at.  The
    results of the arithmetic are another matter: the sum and the division
    in [median], and the product, the quotient, the difference and the sum
    in [compareToBaseline], are rounded (and can overflow).  Here the two
    files are embedded once more over the kernel's binary64 numbers
    ([float]), operation for operation; the properties that speak about the
    results of the arithmetic are stated on this embedding. *)

Set Warnings "-inexact-float".

Module Double.

Local Open Scope float_scope.

Module DailyMetrics.
Record t : Type := mk {
  date : string;
  hrv : option float;
  sleep : option float;
  load : option float
}.
End DailyMetrics.

Module Baseline.
Record t : Type := mk {
  hrv : float;
  sleep : float;
  load : float
}.
End Baseline.

(** [arr.sort((a, b) => a - b)]: the stable sort, an element going behind
    another only when [a - b] is positive (a comparator result of [NaN]
    counts as [0]). *)
Fixpoint insertNumber (x : float) (l : list float) : list float :=
  match l with
  | [] => [x]
  | y :: rest =>
      if 0 <? x - y then y :: insertNumber x rest else x :: y :: rest
  end.

Definition sortNumbers (l : list float) : list float :=
  fold_right insertNumber [] l.

(** The local [median]; an index outside the array would read [undefined],
    which the addition turns into [NaN]. *)
Definition median (arr : list float) : option float :=
  if (Array.length arr =? 0)%Z then None
  else
    let mid := (Array.length arr / 2)%Z in
    if (Array.length arr mod 2 =? 0)%Z
    then Some ((nth (Z.to_nat (mid - 1)) arr nan + nth (Z.to_nat mid) arr nan) / 2)
    else Some (nth (Z.to_nat mid) arr nan).

Definition recentMetrics (metrics : list DailyMetrics.t) : list DailyMetrics.t :=
  Array.slice metrics (-14).

Definition count (metrics : list DailyMetrics.t) : Z :=
  Z.max 7 (Z.min 14 (Array.length (recentMetrics metrics))).

Definition values (metrics : list DailyMetrics.t) : list DailyMetrics.t :=
  Array.slice (recentMetrics metrics) (- count metrics).

Definition sortedValues (field : DailyMetrics.t -> option float)
    (vals : list DailyMetrics.t) : list float :=
  sortNumbers (Array.filterNotNull (map field vals)).

Definition calculateBaseline (metrics : list DailyMetrics.t) : result Baseline.t :=
  if (Array.length metrics =? 0)%Z then throw EmptyDataset
  else
    let vals := values metrics in
    let hrvValues := sortedValues DailyMetrics.hrv vals in
    let sleepValues := sortedValues DailyMetrics.sleep vals in
    let loadValues := sortedValues DailyMetrics.load vals in
    ret {| Baseline.hrv := nullish (median hrvValues) 0;
           Baseline.sleep := nullish (median sleepValues) 0;
           Baseline.load := nullish (median loadValues) 0 |}.

Definition defaultTolerancePercent : float := 5.

Definition compareToBaseline (value : option float) (baseline : float)
    (tolerancePercent : float) : option MetricComparison :=
  match value with
  | None => None
  | Some v =>
      let tolerance := baseline * (tolerancePercent / 100) in
      let lowerBound := baseline - tolerance in
      let upperBound := baseline + tolerance in
      if v <? lowerBound then Some lower
      else if upperBound <? v then Some higher
      else Some within
  end.

Definition dayComparison (day : DailyMetrics.t) (baseline : Baseline.t)
    : ComparisonResult.t :=
  {| ComparisonResult.hrv :=
       compareToBaseline (DailyMetrics.hrv day) (Baseline.hrv baseline)
         defaultTolerancePercent;
     ComparisonResult.sleep :=
       compareToBaseline (DailyMetrics.sleep day) (Baseline.sleep baseline)
         defaultTolerancePercent;
     ComparisonResult.load :=
       compareToBaseline (DailyMetrics.load day) (Baseline.load baseline)
         defaultTolerancePercent |}.

Definition determineDecisionPhase (metrics : list DailyMetrics.t)
    : result Decision.t :=
  if (Array.length metrics <? 2)%Z then throw InsufficientHistory
  else
    baseline <- calculateBaseline metrics ;;
    today <- Array.element metrics (Array.length metrics - 1)%Z ;;
    yesterday <- Array.element metrics (Array.length metrics - 2)%Z ;;
    let todayComparison := dayComparison today baseline in
    let yesterdayComparison := dayComparison yesterday baseline in
    ret (phaseDecision
           (consecutiveLower todayComparison yesterdayComparison)
           (consecutiveHigher todayComparison yesterdayComparison)
           todayComparison).

Definition day (d : string) (h s l : float) : DailyMetrics.t :=
  {| DailyMetrics.date := d; DailyMetrics.hrv := Some h;
     DailyMetrics.sleep := Some s; DailyMetrics.load := Some l |}.

Definition mockDailyMetrics : list DailyMetrics.t :=
  [ day "2024-01-01" 45 7.5 12.5;
    day "2024-01-02" 48 8.0 14.2;
    day "2024-01-03" 46 7.8 13.8;
    day "2024-01-04" 50 8.2 11.5;
    day "2024-01-05" 47 7.9 15.1;
    day "2024-01-06" 49 8.1 13.2;
    day "2024-01-07" 48 8.0 14.0;
    day "2024-01-08" 46 7.7 12.8;
    day "2024-01-09" 51 8.3 11.0;
    day "2024-01-10" 47 7.6 14.5;
    day "2024-01-11" 42 7.2 16.0;
    day "2024-01-12" 40 7.0 16.5;
    day "2024-01-13" 38 6.8 17.0 ].

(** *** Notions used to describe the binary64 embedding *)

Definition reading (metric : MetricKey) : DailyMetrics.t -> option float :=
  match metric with
  | key_hrv => DailyMetrics.hrv
  | key_sleep => DailyMetrics.sleep
  | key_load => DailyMetrics.load
  end.

Definition baselineFor (metric : MetricKey) : Baseline.t -> float :=
  match metric with
  | key_hrv => Baseline.hrv
  | key_sleep => Baseline.sleep
  | key_load => Baseline.load
  end.

Definition presentValues (field : DailyMetrics.t -> option float)
    (vals : list DailyMetrics.t) : list float :=
  Array.filterNotNull (map field vals).


(** The exact value of a finite binary64 number, as a rational. *)
Definition exactValue (x : float) : option Q :=
  match Prim2SF x with
  | S754_zero _ => Some 0%Q
  | S754_finite s m e =>
      Some ((if s then inject_Z (Zneg m) else inject_Z (Zpos m)) * Qpower 2 e)%Q
  | S754_infinity _ => None
  | S754_nan => None
  end.

End Double.

(* ================================================================= *)
(** * Properties *)

(** ** Arrays, slices and the window *)

Section ArrayFacts.
Context {A : Type}.
Implicit Types (arr : list A).

Lemma length_nonneg arr : (0 <= Array.length arr)%Z.
Proof. unfold Array.length. lia. Qed.

Lemma length_zero_iff arr : Array.length arr = 0%Z <-> arr = [].
Proof.
  unfold Array.length. destruct arr; simpl; split; intros H;
    try reflexivity; try discriminate; lia.
Qed.

(** A slice from a negative start drops all but the last [-start]
    elements, and nothing when there are not that many. *)
Lemma slice_negative arr (k : nat) :
  (0 < k)%nat ->
  Array.slice arr (- Z.of_nat k) = skipn (List.length arr - k) arr.
Proof.
  intros Hk. unfold Array.slice, Array.length.
  replace (- Z.of_nat k <? 0)%Z with true by (symmetry; apply Z.ltb_lt; lia).
  f_equal. lia.
Qed.

Lemma trailing_skipn (k : nat) arr :
  trailing k arr = skipn (List.length arr - k) arr.
Proof. unfold trailing. rewrite firstn_rev. apply rev_involutive. Qed.

Lemma get_app_last2 (prefix : list A) (y t : A) :
  Array.get (prefix ++ [y; t]) (Array.length (prefix ++ [y; t]) - 1) = Some t /\
  Array.get (prefix ++ [y; t]) (Array.length (prefix ++ [y; t]) - 2) = Some y.
Proof.
  unfold Array.get, Array.length. rewrite length_app. simpl List.length.
  split.
  - replace (_ <? 0)%Z with false by (symmetry; apply Z.ltb_ge; lia).
    replace (Z.to_nat _) with (List.length prefix + 1)%nat by lia.
    rewrite nth_error_app2 by lia.
    replace (_ - _)%nat with 1%nat by lia. reflexivity.
  - replace (_ <? 0)%Z with false by (symmetry; apply Z.ltb_ge; lia).
    replace (Z.to_nat _) with (List.length prefix + 0)%nat by lia.
    rewrite nth_error_app2 by lia.
    replace (_ - _)%nat with 0%nat by lia. reflexivity.
Qed.

(** A sequence has at least two elements exactly when it ends with a
    "yesterday" and a "today". *)
Lemma two_or_more arr :
  (2 <= Array.length arr)%Z <-> exists prefix y t, arr = prefix ++ [y; t].
Proof.
  unfold Array.length. split.
  - intros H.
    destruct (rev arr) as [|t [|y r]] eqn:E.
    + apply (f_equal (@List.length A)) in E. rewrite length_rev in E. simpl in E. lia.
    + apply (f_equal (@List.length A)) in E. rewrite length_rev in E. simpl in E. lia.
    + exists (rev r), y, t.
      rewrite <- (rev_involutive arr), E. simpl.
      rewrite <- app_assoc. reflexivity.
  - intros (prefix & y & t & ->). rewrite length_app. simpl. lia.
Qed.
End ArrayFacts.

Lemma recentMetrics_skipn metrics :
  recentMetrics metrics = skipn (List.length metrics - 14) metrics.
Proof. unfold recentMetrics. apply (slice_negative metrics 14). lia. Qed.

Lemma length_recentMetrics metrics :
  List.length (recentMetrics metrics) = Nat.min 14 (List.length metrics).
Proof. rewrite recentMetrics_skipn, length_skipn. lia. Qed.

(** The second slice keeps the whole of [recentMetrics]: at most 14
    records are left, and [count] is at least their number. *)
Lemma values_recentMetrics metrics : values metrics = recentMetrics metrics.
Proof.
  unfold values, count, Array.length.
  rewrite length_recentMetrics.
  set (n := Nat.min 14 (List.length metrics)).
  replace (- Z.max 7 (Z.min 14 (Z.of_nat n)))%Z
    with (- Z.of_nat (Nat.max 7 n))%Z by lia.
  rewrite slice_negative by lia.
  rewrite length_recentMetrics. fold n.
  replace (n - Nat.max 7 n)%nat with 0%nat by lia. reflexivity.
Qed.

Lemma valuesWithoutClamp_recentMetrics metrics :
  valuesWithoutClamp metrics = recentMetrics metrics.
Proof.
  unfold valuesWithoutClamp, Array.length.
  rewrite length_recentMetrics.
  set (n := Nat.min 14 (List.length metrics)).
  destruct (Nat.eq_dec n 0) as [E | NE].
  - rewrite E. simpl. unfold Array.slice. simpl.
    destruct (recentMetrics metrics); reflexivity.
  - replace (- Z.min 14 (Z.of_nat n))%Z with (- Z.of_nat n)%Z by lia.
    rewrite slice_negative by lia.
    rewrite length_recentMetrics. fold n.
    replace (n - n)%nat with 0%nat by lia. reflexivity.
Qed.

Lemma values_trailingWindow metrics : values metrics = trailingWindow metrics.
Proof.
  rewrite values_recentMetrics, recentMetrics_skipn.
  unfold trailingWindow. rewrite trailing_skipn. f_equal. lia.
Qed.

Lemma calculateBaseline_nonempty metrics :
  metrics <> [] -> calculateBaseline metrics = inr (mediansOver (values metrics)).
Proof.
  intros NE. unfold calculateBaseline.
  destruct (Array.length metrics =? 0)%Z eqn:E; [|reflexivity].
  apply Z.eqb_eq, length_zero_iff in E. contradiction.
Qed.

(** C5.  On a non-empty input of [N] records the medians are taken over
    exactly the trailing [min 14 N] records: the window [values] the code
    builds with its clamp to 7 is that trailing window, it is also the
    window the code would build without the clamp, and [calculateBaseline]
    returns the medians over the trailing window. *)
Theorem window_is_trailing_min14 (metrics : list DailyMetrics.t) :
  metrics <> [] ->
  values metrics = trailingWindow metrics /\
  values metrics = valuesWithoutClamp metrics /\
  List.length (values metrics) = Nat.min 14 (List.length metrics) /\
  calculateBaseline metrics = inr (mediansOver (trailingWindow metrics)).
Proof.
  intros NE. repeat split.
  - apply values_trailingWindow.
  - rewrite valuesWithoutClamp_recentMetrics. apply values_recentMetrics.
  - rewrite values_recentMetrics. apply length_recentMetrics.
  - rewrite <- values_trailingWindow. now apply calculateBaseline_nonempty.
Qed.

(** ** Errors and totality *)

Lemma calculateBaseline_empty : calculateBaseline [] = inl EmptyDataset.
Proof. reflexivity. Qed.

(** What [determineDecisionPhase] computes on an input that ends with
    [yesterday] and [today]. *)
Lemma determineDecisionPhase_run prefix yesterday today :
  let metrics := prefix ++ [yesterday; today] in
  let baseline := mediansOver (values metrics) in
  let todayComparison := dayComparison today baseline in
  let yesterdayComparison := dayComparison yesterday baseline in
  calculateBaseline metrics = inr baseline /\
  determineDecisionPhase metrics =
  inr (phaseDecision
         (consecutiveLower todayComparison yesterdayComparison)
         (consecutiveHigher todayComparison yesterdayComparison)
         todayComparison).
Proof.
  intros metrics baseline tc yc.
  assert (NE : metrics <> []) by (subst metrics; destruct prefix; discriminate).
  assert (Hb : calculateBaseline metrics = inr baseline)
    by (now apply calculateBaseline_nonempty).
  split; [exact Hb|].
  unfold determineDecisionPhase.
  assert (Hlen : (2 <= Array.length metrics)%Z)
    by (apply two_or_more; now exists prefix, yesterday, today).
  replace (Array.length metrics <? 2)%Z with false
    by (symmetry; apply Z.ltb_ge; exact Hlen).
  rewrite Hb. cbn [bind].
  destruct (get_app_last2 prefix yesterday today) as [Ht Hy].
  fold metrics in Ht, Hy.
  unfold Array.element. rewrite Ht, Hy. reflexivity.
Qed.

Lemma determineDecisionPhase_short metrics :
  (Array.length metrics < 2)%Z ->
  determineDecisionPhase metrics = inl InsufficientHistory.
Proof.
  intros H. unfold determineDecisionPhase.
  replace (Array.length metrics <? 2)%Z with true
    by (symmetry; apply Z.ltb_lt; exact H).
  reflexivity.
Qed.

(** C8.  [calculateBaseline] fails exactly on the empty input, and then
    with [EmptyDataset]; [determineDecisionPhase] fails exactly on inputs of
    fewer than two records, and then with [InsufficientHistory]; an input of
    exactly two records does not fail; on every other input each function
    returns a result. *)
Theorem errors_exactly_on_short_inputs (metrics : list DailyMetrics.t) :
  (calculateBaseline metrics = inl EmptyDataset <-> List.length metrics = 0%nat) /\
  ((exists e, calculateBaseline metrics = inl e) <-> List.length metrics = 0%nat) /\
  ((exists b, calculateBaseline metrics = inr b) <-> List.length metrics <> 0%nat) /\
  (determineDecisionPhase metrics = inl InsufficientHistory
     <-> (List.length metrics < 2)%nat) /\
  ((exists e, determineDecisionPhase metrics = inl e)
     <-> (List.length metrics < 2)%nat) /\
  ((exists r, determineDecisionPhase metrics = inr r)
     <-> (2 <= List.length metrics)%nat) /\
  (List.length metrics = 2%nat -> exists r, determineDecisionPhase metrics = inr r).
Proof.
  assert (Hcb : List.length metrics <> 0%nat ->
                calculateBaseline metrics = inr (mediansOver (values metrics))).
  { intros H. apply calculateBaseline_nonempty. intros ->. now apply H. }
  assert (Hce : List.length metrics = 0%nat ->
                calculateBaseline metrics = inl EmptyDataset).
  { intros H. apply length_zero_iff_nil in H. subst. reflexivity. }
  assert (Hds : (List.length metrics < 2)%nat ->
                determineDecisionPhase metrics = inl InsufficientHistory).
  { intros H. apply determineDecisionPhase_short. unfold Array.length. lia. }
  assert (Hdr : (2 <= List.length metrics)%nat ->
                exists r, determineDecisionPhase metrics = inr r).
  { intros H.
    assert (H2 : (2 <= Array.length metrics)%Z) by (unfold Array.length; lia).
    apply two_or_more in H2. destruct H2 as (prefix & y & t & ->).
    eexists. apply (determineDecisionPhase_run prefix y t). }
  assert (D0 : {List.length metrics = 0%nat} + {List.length metrics <> 0%nat})
    by apply Nat.eq_dec.
  assert (D2 : {(List.length metrics < 2)%nat} + {(2 <= List.length metrics)%nat})
    by (destruct (Compare_dec.le_lt_dec 2 (List.length metrics)); auto).
  repeat split.
  - intros H. destruct D0 as [E|NE]; [exact E|]. rewrite (Hcb NE) in H. discriminate.
  - exact Hce.
  - intros [e H]. destruct D0 as [E|NE]; [exact E|]. rewrite (Hcb NE) in H. discriminate.
  - intros H. eexists. apply (Hce H).
  - intros [b H] E. rewrite (Hce E) in H. discriminate.
  - intros NE. eexists. apply (Hcb NE).
  - intros H. destruct D2 as [L|G]; [exact L|].
    destruct (Hdr G) as [r Hr]. rewrite Hr in H. discriminate.
  - exact Hds.
  - intros [e H]. destruct D2 as [L|G]; [exact L|].
    destruct (Hdr G) as [r Hr]. rewrite Hr in H. discriminate.
  - intros H. eexists. apply (Hds H).
  - intros [r H]. destruct D2 as [L|G]; [|exact G].
    rewrite (Hds L) in H. discriminate.
  - exact Hdr.
  - intros H. apply Hdr. lia.
Qed.

(** ** The classifier *)

Local Open Scope Q_scope.

Lemma tolerance_eq (b p : Q) : b * (p / 100) == b * p / 100.
Proof. field. Qed.

(** The three branches of [compareToBaseline], in the order the code tests
    them. *)
Lemma compareToBaseline_cases (v b p : Q) :
  let t := b * p / 100 in
  (v < b - t -> compareToBaseline (Some v) b p = Some lower) /\
  (b - t <= v -> b + t < v -> compareToBaseline (Some v) b p = Some higher) /\
  (b - t <= v -> v <= b + t -> compareToBaseline (Some v) b p = Some within).
Proof.
  intros t. pose proof (tolerance_eq b p) as Ht. fold t in Ht.
  unfold compareToBaseline.
  destruct (Qlt_le_dec v (b - b * (p / 100))) as [L | L];
    [| destruct (Qlt_le_dec (b + b * (p / 100)) v) as [U | U]];
    rewrite Ht in *; repeat split; intros; try reflexivity; exfalso; lra.
Qed.

Lemma compareToBaseline_absent (v : option Q) (b p : Q) :
  compareToBaseline v b p = None <-> v = None.
Proof.
  unfold compareToBaseline. destruct v as [x|]; [|tauto].
  destruct (Qlt_le_dec _ _); [|destruct (Qlt_le_dec _ _)];
    split; discriminate.
Qed.

(** C9 (as amended).  Against a baseline of [0] with the default tolerance
    the band has zero width: a reading above [0] classifies as [higher], a
    reading equal to [0] as [within], a reading below [0] as [lower]. *)
Theorem zero_baseline_classification (b v : Q) :
  b == 0 ->
  (0 < v -> compareToBaseline (Some v) b defaultTolerancePercent = Some higher) /\
  (v == 0 -> compareToBaseline (Some v) b defaultTolerancePercent = Some within) /\
  (v < 0 -> compareToBaseline (Some v) b defaultTolerancePercent = Some lower).
Proof.
  intros Hb.
  destruct (compareToBaseline_cases v b defaultTolerancePercent) as (Hl & Hh & Hw).
  unfold defaultTolerancePercent in *. cbv zeta in Hl, Hh, Hw.
  assert (Ht : b * 5 / 100 == 0) by (rewrite Hb; reflexivity).
  repeat split; intros Hv; [apply Hh | apply Hw | apply Hl]; rewrite Ht; lra.
Qed.

Lemma zero_baseline_classification_witness :
  0 == 0 /\
  compareToBaseline (Some 38) 0 defaultTolerancePercent = Some higher /\
  compareToBaseline (Some 0) 0 defaultTolerancePercent = Some within.
Proof.
  split; [reflexivity|].
  split.
  - apply (zero_baseline_classification 0 38); reflexivity.
  - apply (zero_baseline_classification 0 0); reflexivity.
Defined.

(** A reading of [0] against the zero fall-back baseline is [within], not
    [higher]: here no heart-rate variability was recorded in the window, so
    its baseline is [0]. *)
Lemma zero_baseline_counterexample :
  let window :=
    [ {| DailyMetrics.date := "2024-01-01"; DailyMetrics.hrv := None;
         DailyMetrics.sleep := Some 7.5; DailyMetrics.load := Some 12.5 |} ] in
  exists b,
    calculateBaseline window = inr b /\ Baseline.hrv b = 0 /\
    compareToBaseline (Some 0) (Baseline.hrv b) defaultTolerancePercent
      = Some within /\
    compareToBaseline (Some 0) (Baseline.hrv b) defaultTolerancePercent
      <> Some higher.
Proof.
  cbv zeta. eexists. split; [reflexivity|].
  split; [reflexivity|]. split; [reflexivity|]. vm_compute. discriminate.
Qed.

(** ** The trend rule *)

Local Open Scope Z_scope.

Lemma dayComparison_get (metric : MetricKey) (day : DailyMetrics.t) (b : Baseline.t) :
  ComparisonResult.get (dayComparison day b) metric =
  compareToBaseline (reading metric day) (baselineFor metric b)
    defaultTolerancePercent.
Proof. destruct metric; reflexivity. Qed.

Lemma strictEq_true_iff (x : option MetricComparison) (c : MetricComparison) :
  strictEq x c = true <-> x = Some c.
Proof.
  destruct x as [v|]; simpl; [|split; discriminate].
  destruct v, c; simpl; split; intros H; try reflexivity; try discriminate;
    inversion H.
Qed.

(** A metric passes the filter for a direction exactly when both days'
    verdicts are present and equal to that direction. *)
Lemma consecutiveIn_true_iff dir tc yc metric :
  consecutiveIn dir tc yc metric = true <->
  ComparisonResult.get tc metric = Some dir /\
  ComparisonResult.get yc metric = Some dir.
Proof.
  unfold consecutiveIn. rewrite !andb_true_iff, !strictEq_true_iff.
  split.
  - tauto.
  - intros [Ht Hy]. rewrite Ht, Hy. simpl. tauto.
Qed.

Lemma consecutiveIn_exclusive tc yc metric :
  consecutiveIn lower tc yc metric = true ->
  consecutiveIn higher tc yc metric = true -> False.
Proof.
  rewrite !consecutiveIn_true_iff. intros [Hl _] [Hh _]. congruence.
Qed.

(** The length of the filtered key list is the number of keys that pass. *)
Lemma filtered_length (f : MetricKey -> bool) :
  Array.length (filter f metricsToCheck) =
  Z.b2z (f key_hrv) + Z.b2z (f key_sleep) + Z.b2z (f key_load).
Proof.
  unfold metricsToCheck, Array.length. simpl.
  destruct (f key_hrv), (f key_sleep), (f key_load); reflexivity.
Qed.

Lemma In_metricsToCheck (metric : MetricKey) : In metric metricsToCheck.
Proof. destruct metric; simpl; auto. Qed.

Lemma NoDup_metricsToCheck : NoDup metricsToCheck.
Proof.
  unfold metricsToCheck.
  repeat constructor; simpl; intuition discriminate.
Qed.

Lemma counts_disjoint tc yc :
  0 <= consecutiveLower tc yc <= 3 /\
  0 <= consecutiveHigher tc yc <= 3 /\
  consecutiveLower tc yc + consecutiveHigher tc yc <= 3.
Proof.
  unfold consecutiveLower, consecutiveHigher. rewrite !filtered_length.
  pose proof (consecutiveIn_exclusive tc yc key_hrv) as H1.
  pose proof (consecutiveIn_exclusive tc yc key_sleep) as H2.
  pose proof (consecutiveIn_exclusive tc yc key_load) as H3.
  destruct (consecutiveIn lower tc yc key_hrv),
           (consecutiveIn higher tc yc key_hrv);
    try (exfalso; now apply H1);
  destruct (consecutiveIn lower tc yc key_sleep),
           (consecutiveIn higher tc yc key_sleep);
    try (exfalso; now apply H2);
  destruct (consecutiveIn lower tc yc key_load),
           (consecutiveIn higher tc yc key_load);
    try (exfalso; now apply H3);
  simpl; lia.
Qed.

(** The decision step, branch by branch. *)
Lemma phaseDecision_lower cl ch tc :
  2 <= cl ->
  phaseDecision cl ch tc =
  {| Decision.phase := CONSIDER_ADJUSTMENT;
     Decision.comparison := tc;
     Decision.reason := recoveryReason cl |}.
Proof.
  intros H. unfold phaseDecision.
  replace (2 <=? cl) with true by (symmetry; now apply Z.leb_le).
  reflexivity.
Qed.

Lemma phaseDecision_higher cl ch tc :
  cl < 2 -> 2 <= ch ->
  phaseDecision cl ch tc =
  {| Decision.phase := CONSIDER_ADJUSTMENT;
     Decision.comparison := tc;
     Decision.reason := loadReason ch |}.
Proof.
  intros Hl Hh. unfold phaseDecision.
  replace (2 <=? cl) with false by (symmetry; now apply Z.leb_gt).
  replace (2 <=? ch) with true by (symmetry; now apply Z.leb_le).
  reflexivity.
Qed.

Lemma phaseDecision_observe cl ch tc :
  cl < 2 -> ch < 2 ->
  phaseDecision cl ch tc =
  {| Decision.phase := OBSERVE;
     Decision.comparison := tc;
     Decision.reason := "Observing current state." |}.
Proof.
  intros Hl Hh. unfold phaseDecision.
  replace (2 <=? cl) with false by (symmetry; now apply Z.leb_gt).
  replace (2 <=? ch) with false by (symmetry; now apply Z.leb_gt).
  reflexivity.
Qed.

Lemma phaseDecision_comparison cl ch tc :
  Decision.comparison (phaseDecision cl ch tc) = tc.
Proof.
  unfold phaseDecision.
  destruct (2 <=? cl), (2 <=? ch); reflexivity.
Qed.

(** The counts the engine can print. *)
Example numberToString_digits :
  numberToString 0 = "0"%string /\ numberToString 1 = "1"%string /\
  numberToString 2 = "2"%string /\ numberToString 3 = "3"%string.
Proof. repeat split. Qed.

(** ** The decision engine on inputs of two or more records *)

(** On an input of at least two records the engine reads its last two
    records, computes one baseline over the whole input and returns the
    decision step applied to the two counts. *)
Lemma determineDecisionPhase_spec (metrics : list DailyMetrics.t) :
  (2 <= List.length metrics)%nat ->
  exists yesterday today baseline,
    nth_error metrics (List.length metrics - 2) = Some yesterday /\
    nth_error metrics (List.length metrics - 1) = Some today /\
    calculateBaseline metrics = inr baseline /\
    determineDecisionPhase metrics =
    inr (phaseDecision
           (consecutiveLower (dayComparison today baseline)
                             (dayComparison yesterday baseline))
           (consecutiveHigher (dayComparison today baseline)
                              (dayComparison yesterday baseline))
           (dayComparison today baseline)).
Proof.
  intros H.
  assert (H2 : 2 <= Array.length metrics) by (unfold Array.length; lia).
  apply two_or_more in H2. destruct H2 as (prefix & y & t & ->).
  exists y, t, (mediansOver (values (prefix ++ [y; t]))).
  destruct (determineDecisionPhase_run prefix y t) as [Hb Hr].
  rewrite length_app. simpl List.length.
  repeat split.
  - rewrite nth_error_app2 by lia.
    replace (_ - _)%nat with 0%nat by lia. reflexivity.
  - rewrite nth_error_app2 by lia.
    replace (_ - _)%nat with 1%nat by lia. reflexivity.
  - exact Hb.
  - exact Hr.
Qed.



(** C2.  On every input of at least two records, both days are classified
    against the one baseline computed from the whole input, and for each of
    the three metrics: the metric is counted toward consecutive-lower
    exactly when today's and yesterday's verdicts are both present and both
    [lower]; it is counted toward consecutive-higher exactly when both are
    present and both [higher]; a metric whose verdict (equivalently, whose
    reading) is absent on either day is counted toward neither.  Each count
    is the number of metrics so counted, each metric once. *)
Theorem trend_rule_counts (metrics : list DailyMetrics.t) :
  (2 <= List.length metrics)%nat ->
  exists yesterday today baseline,
    nth_error metrics (List.length metrics - 2) = Some yesterday /\
    nth_error metrics (List.length metrics - 1) = Some today /\
    calculateBaseline metrics = inr baseline /\
    let todayComparison := dayComparison today baseline in
    let yesterdayComparison := dayComparison yesterday baseline in
    let lowers :=
      filter (consecutiveIn lower todayComparison yesterdayComparison)
        metricsToCheck in
    let highers :=
      filter (consecutiveIn higher todayComparison yesterdayComparison)
        metricsToCheck in
    determineDecisionPhase metrics =
      inr (phaseDecision (Z.of_nat (List.length lowers))
             (Z.of_nat (List.length highers)) todayComparison) /\
    (forall metric,
       ComparisonResult.get todayComparison metric =
         compareToBaseline (reading metric today) (baselineFor metric baseline)
           defaultTolerancePercent /\
       ComparisonResult.get yesterdayComparison metric =
         compareToBaseline (reading metric yesterday) (baselineFor metric baseline)
           defaultTolerancePercent) /\
    (forall metric,
       In metric lowers <->
       ComparisonResult.get todayComparison metric = Some lower /\
       ComparisonResult.get yesterdayComparison metric = Some lower) /\
    (forall metric,
       In metric highers <->
       ComparisonResult.get todayComparison metric = Some higher /\
       ComparisonResult.get yesterdayComparison metric = Some higher) /\
    (forall metric,
       ComparisonResult.get todayComparison metric = None \/
       ComparisonResult.get yesterdayComparison metric = None \/
       reading metric today = None \/ reading metric yesterday = None ->
       ~ In metric lowers /\ ~ In metric highers) /\
    NoDup lowers /\ NoDup highers.
Proof.
  intros H.
  destruct (determineDecisionPhase_spec metrics H)
    as (y & t & b & Hy & Ht & Hb & Hr).
  exists y, t, b. do 3 (split; [assumption|]).
  cbv zeta.
  set (tc := dayComparison t b) in *. set (yc := dayComparison y b) in *.
  assert (Hin : forall dir metric,
             In metric (filter (consecutiveIn dir tc yc) metricsToCheck) <->
             ComparisonResult.get tc metric = Some dir /\
             ComparisonResult.get yc metric = Some dir).
  { intros dir metric. rewrite filter_In, consecutiveIn_true_iff.
    pose proof (In_metricsToCheck metric). tauto. }
  split; [exact Hr|]. split; [|split; [|split; [|split; [|split]]]].
  - intros metric. subst tc yc. rewrite !dayComparison_get. split; reflexivity.
  - apply Hin.
  - apply Hin.
  - intros metric Habs. rewrite !Hin.
    assert (Hnone : ComparisonResult.get tc metric = None \/
                    ComparisonResult.get yc metric = None).
    { subst tc yc. rewrite !dayComparison_get, !compareToBaseline_absent.
      rewrite !dayComparison_get, !compareToBaseline_absent in Habs. tauto. }
    split; intros [A B]; destruct Hnone as [N | N]; congruence.
  - apply NoDup_filter, NoDup_metricsToCheck.
  - apply NoDup_filter, NoDup_metricsToCheck.
Qed.

Lemma trend_rule_counts_witness :
  (2 <= List.length mockDailyMetrics)%nat /\
  exists yesterday today baseline,
    nth_error mockDailyMetrics 11 = Some yesterday /\
    nth_error mockDailyMetrics 12 = Some today /\
    calculateBaseline mockDailyMetrics = inr baseline /\
    NoDup (filter (consecutiveIn lower (dayComparison today baseline)
                     (dayComparison yesterday baseline)) metricsToCheck).
Proof.
  assert (H : (2 <= List.length mockDailyMetrics)%nat) by (simpl; lia).
  split; [exact H|].
  destruct (trend_rule_counts mockDailyMetrics H)
    as (y & t & b & Hy & Ht & Hb & _ & _ & _ & _ & _ & Hn & _).
  exists y, t, b. repeat split; assumption.
Defined.

(** C7.  The engine's result is its decision step applied to the two
    counts, and whenever both counts handed to that step are at least 2 the
    step answers [CONSIDER_ADJUSTMENT] with the lower-direction reason built
    from the consecutive-lower count: lower is tested first and wins. *)
Theorem lower_takes_precedence (metrics : list DailyMetrics.t) :
  (2 <= List.length metrics)%nat ->
  exists yesterday today baseline,
    nth_error metrics (List.length metrics - 2) = Some yesterday /\
    nth_error metrics (List.length metrics - 1) = Some today /\
    calculateBaseline metrics = inr baseline /\
    let todayComparison := dayComparison today baseline in
    let yesterdayComparison := dayComparison yesterday baseline in
    determineDecisionPhase metrics =
      inr (phaseDecision
             (consecutiveLower todayComparison yesterdayComparison)
             (consecutiveHigher todayComparison yesterdayComparison)
             todayComparison) /\
    forall cl ch : Z,
      2 <= cl -> 2 <= ch ->
      phaseDecision cl ch todayComparison =
      {| Decision.phase := CONSIDER_ADJUSTMENT;
         Decision.comparison := todayComparison;
         Decision.reason :=
           (numberToString cl ++
            " recovery signals have been outside baseline for 2 consecutive days.")%string |}.
Proof.
  intros H.
  destruct (determineDecisionPhase_spec metrics H)
    as (y & t & b & Hy & Ht & Hb & Hr).
  exists y, t, b. do 3 (split; [assumption|]).
  cbv zeta. split; [exact Hr|].
  intros cl ch Hl _. apply phaseDecision_lower. exact Hl.
Qed.

Lemma lower_takes_precedence_witness :
  (2 <= List.length mockDailyMetrics)%nat /\ 2 <= 2 /\ 2 <= 3 /\
  exists today baseline,
    nth_error mockDailyMetrics 12 = Some today /\
    calculateBaseline mockDailyMetrics = inr baseline /\
    phaseDecision 2 3 (dayComparison today baseline) =
    {| Decision.phase := CONSIDER_ADJUSTMENT;
       Decision.comparison := dayComparison today baseline;
       Decision.reason :=
         "2 recovery signals have been outside baseline for 2 consecutive days." |}.
Proof.
  assert (H : (2 <= List.length mockDailyMetrics)%nat) by (simpl; lia).
  assert (H2 : 2 <= 2) by lia.
  assert (H3 : 2 <= 3) by lia.
  split; [exact H|]. split; [exact H2|]. split; [exact H3|].
  destruct (lower_takes_precedence mockDailyMetrics H)
    as (y & t & b & _ & Ht & Hb & _ & Hp).
  exists t, b. split; [exact Ht|]. split; [exact Hb|].
  exact (Hp 2 3 H2 H3).
Defined.

(** C10.  On every input of at least two records no metric is counted both
    toward consecutive-lower and toward consecutive-higher, the two counts
    add up to at most 3, they are never both at least 2, and the decision
    is the same whichever direction is tested first. *)
Theorem counts_never_tie (metrics : list DailyMetrics.t) :
  (2 <= List.length metrics)%nat ->
  exists yesterday today baseline,
    nth_error metrics (List.length metrics - 2) = Some yesterday /\
    nth_error metrics (List.length metrics - 1) = Some today /\
    calculateBaseline metrics = inr baseline /\
    let todayComparison := dayComparison today baseline in
    let yesterdayComparison := dayComparison yesterday baseline in
    let cl := consecutiveLower todayComparison yesterdayComparison in
    let ch := consecutiveHigher todayComparison yesterdayComparison in
    (forall metric,
       ~ (In metric (filter (consecutiveIn lower todayComparison
                               yesterdayComparison) metricsToCheck) /\
          In metric (filter (consecutiveIn higher todayComparison
                               yesterdayComparison) metricsToCheck))) /\
    cl + ch <= 3 /\
    ~ (2 <= cl /\ 2 <= ch) /\
    determineDecisionPhase metrics = inr (phaseDecision cl ch todayComparison) /\
    determineDecisionPhase metrics =
      inr (phaseDecisionHigherFirst cl ch todayComparison).
Proof.
  intros H.
  destruct (determineDecisionPhase_spec metrics H)
    as (y & t & b & Hy & Ht & Hb & Hr).
  exists y, t, b. do 3 (split; [assumption|]).
  cbv zeta.
  set (tc := dayComparison t b) in *. set (yc := dayComparison y b) in *.
  destruct (counts_disjoint tc yc) as (Bl & Bh & Hsum).
  split; [|split; [|split; [|split]]].
  - intros metric [Hl Hh]. apply filter_In in Hl, Hh.
    destruct Hl as [_ Hl], Hh as [_ Hh].
    exact (consecutiveIn_exclusive tc yc metric Hl Hh).
  - exact Hsum.
  - lia.
  - exact Hr.
  - rewrite Hr. f_equal.
    set (cl := consecutiveLower tc yc) in *.
    set (ch := consecutiveHigher tc yc) in *.
    unfold phaseDecisionHigherFirst.
    destruct (Z_lt_le_dec cl 2) as [Ll | Ll];
      [destruct (Z_lt_le_dec ch 2) as [Lh | Lh]|].
    + rewrite (phaseDecision_observe cl ch tc Ll Lh).
      replace (2 <=? ch) with false by (symmetry; now apply Z.leb_gt).
      replace (2 <=? cl) with false by (symmetry; now apply Z.leb_gt).
      reflexivity.
    + rewrite (phaseDecision_higher cl ch tc Ll Lh).
      replace (2 <=? ch) with true by (symmetry; now apply Z.leb_le).
      reflexivity.
    + rewrite (phaseDecision_lower cl ch tc Ll).
      replace (2 <=? ch) with false by (symmetry; apply Z.leb_gt; lia).
      replace (2 <=? cl) with true by (symmetry; now apply Z.leb_le).
      reflexivity.
Qed.

Lemma counts_never_tie_witness :
  (2 <= List.length mockDailyMetrics)%nat /\
  exists yesterday today baseline,
    nth_error mockDailyMetrics 11 = Some yesterday /\
    nth_error mockDailyMetrics 12 = Some today /\
    calculateBaseline mockDailyMetrics = inr baseline /\
    consecutiveLower (dayComparison today baseline)
      (dayComparison yesterday baseline) +
    consecutiveHigher (dayComparison today baseline)
      (dayComparison yesterday baseline) <= 3.
Proof.
  assert (H : (2 <= List.length mockDailyMetrics)%nat) by (simpl; lia).
  split; [exact H|].
  destruct (counts_never_tie mockDailyMetrics H)
    as (y & t & b & Hy & Ht & Hb & _ & Hs & _).
  exists y, t, b. repeat split; assumption.
Defined.

(** ** Sorting and the median *)

Local Open Scope Q_scope.

Lemma sort_sorted (l : list Q) : StronglySorted Qle (NumberSort.sort l).
Proof.
  apply Sorted_StronglySorted.
  - intros x y z. apply Qle_trans.
  - pose proof (NumberSort.Sorted_sort l) as H.
    induction H as [|a r Hr IH Hd]; constructor; [exact IH|].
    destruct Hd as [|b r' Hab]; constructor.
    apply Qle_bool_iff. exact Hab.
Qed.

Lemma sort_permutation (l : list Q) : Permutation l (NumberSort.sort l).
Proof. apply NumberSort.Permuted_sort. Qed.

Lemma sort_nonempty (l : list Q) : l <> [] -> NumberSort.sort l <> [].
Proof.
  intros NE E. apply NE.
  apply Permutation_nil. rewrite <- E. apply Permutation_sym, sort_permutation.
Qed.

(** The two indices [median] reads lie inside a non-empty array. *)
Lemma median_indices_in_range (arr : list Q) :
  arr <> [] ->
  let mid := (Array.length arr / 2)%Z in
  (0 <= mid < Array.length arr)%Z /\
  ((Array.length arr mod 2 = 0)%Z -> (0 <= mid - 1 < Array.length arr)%Z).
Proof.
  intros NE. unfold Array.length.
  assert (0 < List.length arr)%nat
    by (destruct arr; [contradiction | simpl; lia]).
  cbv zeta. Z.div_mod_to_equations. lia.
Qed.

(** On a non-empty array [median] returns the median of that array as the
    specification defines it for a sorted sequence. *)
Lemma median_medianOfSorted (arr : list Q) :
  arr <> [] -> exists m, median arr = Some m /\ medianOfSorted arr m.
Proof.
  intros NE. unfold median, Array.length.
  set (n := List.length arr).
  assert (Hn : (0 < n)%nat)
    by (subst n; destruct arr; [contradiction | simpl; lia]).
  replace (Z.of_nat n =? 0)%Z with false by (symmetry; apply Z.eqb_neq; lia).
  destruct (Nat.Even_or_Odd n) as [[k Hk] | [k Hk]].
  - assert (E0 : (Z.of_nat n mod 2 = 0)%Z) by (Z.div_mod_to_equations; lia).
    assert (Ed : (Z.of_nat n / 2 = Z.of_nat k)%Z) by (Z.div_mod_to_equations; lia).
    assert (En : (n / 2 = k)%nat)
      by (rewrite Hk, Nat.mul_comm; apply Nat.div_mul; lia).
    rewrite E0, Ed. simpl Z.eqb. cbv iota.
    replace (Z.to_nat (Z.of_nat k - 1)) with (k - 1)%nat by lia.
    rewrite Nat2Z.id.
    eexists. split; [reflexivity|].
    apply medianEven; fold n.
    + apply Nat.even_spec. now exists k.
    + rewrite En. apply nth_error_nth'. fold n. lia.
    + rewrite En. apply nth_error_nth'. fold n. lia.
  - assert (E1 : (Z.of_nat n mod 2 = 1)%Z) by (Z.div_mod_to_equations; lia).
    assert (Ed : (Z.of_nat n / 2 = Z.of_nat k)%Z) by (Z.div_mod_to_equations; lia).
    assert (En : (n / 2 = k)%nat).
    { symmetry. apply (Nat.div_unique n 2 k 1); lia. }
    rewrite E1, Ed. simpl Z.eqb. cbv iota.
    rewrite Nat2Z.id.
    eexists. split; [reflexivity|].
    apply medianOdd; fold n.
    + apply Nat.odd_spec. now exists k.
    + rewrite En. apply nth_error_nth'. fold n. lia.
Qed.

(** *** The element at a given rank of a sorted rearrangement *)

Lemma countBelow_cons (x a : Q) (l : list Q) :
  countBelow x (a :: l) =
  ((if Qle_bool x a then 0 else 1) + countBelow x l)%nat.
Proof. unfold countBelow. simpl. destruct (Qle_bool x a); reflexivity. Qed.

Lemma countAtMost_cons (x a : Q) (l : list Q) :
  countAtMost x (a :: l) =
  ((if Qle_bool a x then 1 else 0) + countAtMost x l)%nat.
Proof. unfold countAtMost. simpl. destruct (Qle_bool a x); reflexivity. Qed.

Lemma countBelow_permutation (x : Q) (l l' : list Q) :
  Permutation l l' -> countBelow x l = countBelow x l'.
Proof.
  induction 1 as [| a l l' _ IH | a b l | l l' l'' _ IH1 _ IH2].
  - reflexivity.
  - rewrite !countBelow_cons, IH. reflexivity.
  - rewrite !countBelow_cons. lia.
  - congruence.
Qed.

Lemma countAtMost_permutation (x : Q) (l l' : list Q) :
  Permutation l l' -> countAtMost x l = countAtMost x l'.
Proof.
  induction 1 as [| a l l' _ IH | a b l | l l' l'' _ IH1 _ IH2].
  - reflexivity.
  - rewrite !countAtMost_cons, IH. reflexivity.
  - rewrite !countAtMost_cons. lia.
  - congruence.
Qed.

Lemma countBelow_of_lower_bound (x : Q) (l : list Q) :
  Forall (Qle x) l -> countBelow x l = 0%nat.
Proof.
  induction 1 as [| a l Ha _ IH]; [reflexivity|].
  rewrite countBelow_cons, IH.
  apply Qle_bool_iff in Ha. rewrite Ha. reflexivity.
Qed.

(** Whatever is at most [x] is strictly below any [x'] above [x]. *)
Lemma countAtMost_le_countBelow (x x' : Q) (l : list Q) :
  x < x' -> (countAtMost x l <= countBelow x' l)%nat.
Proof.
  intros Hlt. induction l as [| a l IH]; [reflexivity|].
  rewrite countAtMost_cons, countBelow_cons.
  destruct (Qle_bool a x) eqn:E1, (Qle_bool x' a) eqn:E2; try lia.
  apply Qle_bool_iff in E1, E2. exfalso. lra.
Qed.

(** In a sorted sequence the element at index [i] has at most [i] elements
    strictly below it and more than [i] elements at most equal to it. *)
Lemma rank_in_sorted (s : list Q) :
  StronglySorted Qle s ->
  forall (i : nat) (x : Q),
    nth_error s i = Some x ->
    (countBelow x s <= i < countAtMost x s)%nat.
Proof.
  induction 1 as [| a r Hr IH Ha]; intros i x Hi.
  - destruct i; discriminate.
  - rewrite countBelow_cons, countAtMost_cons.
    destruct i as [| j]; simpl in Hi.
    + injection Hi as <-.
      rewrite (countBelow_of_lower_bound a r Ha).
      assert (Qle_bool a a = true) as -> by (apply Qle_bool_iff; lra).
      lia.
    + specialize (IH j x Hi).
      assert (Hax : a <= x).
      { rewrite Forall_forall in Ha. apply Ha. eapply nth_error_In; eauto. }
      apply Qle_bool_iff in Hax. rewrite Hax.
      destruct (Qle_bool x a); lia.
Qed.

(** Two sorted rearrangements of the same readings carry equal numbers at
    equal indices. *)
Lemma sorted_rank_unique (s s' : list Q) (i : nat) (x x' : Q) :
  Permutation s s' -> StronglySorted Qle s -> StronglySorted Qle s' ->
  nth_error s i = Some x -> nth_error s' i = Some x' -> x == x'.
Proof.
  intros P S S' Hx Hx'.
  pose proof (rank_in_sorted s S i x Hx) as [Bx Ax].
  pose proof (rank_in_sorted s' S' i x' Hx') as [Bx' Ax'].
  destruct (Q_dec x x') as [[Lt | Gt] | E]; [| | exact E]; exfalso.
  - pose proof (countAtMost_le_countBelow x x' s Lt) as M.
    rewrite (countBelow_permutation x' s s' P) in M. lia.
  - pose proof (countAtMost_le_countBelow x' x s' Gt) as M.
    rewrite <- (countBelow_permutation x s s' P) in M. lia.
Qed.

Lemma medianOfSorted_unique (s s' : list Q) (m m' : Q) :
  Permutation s s' -> Sorted Qle s -> Sorted Qle s' ->
  medianOfSorted s m -> medianOfSorted s' m' -> m == m'.
Proof.
  intros P S S' M M'.
  assert (T : Relations_1.Transitive Qle) by (intros x y z; apply Qle_trans).
  apply (Sorted_StronglySorted T) in S, S'.
  pose proof (Permutation_length P) as L.
  destruct M as [m Ho Hm | a b He Ha Hb];
    destruct M' as [m' Ho' Hm' | a' b' He' Ha' Hb']; rewrite <- L in *.
  - exact (sorted_rank_unique s s' _ m m' P S S' Hm Hm').
  - rewrite <- Nat.negb_odd, Ho in He'. discriminate.
  - rewrite <- Nat.negb_odd, Ho' in He. discriminate.
  - rewrite (sorted_rank_unique s s' _ a a' P S S' Ha Ha').
    rewrite (sorted_rank_unique s s' _ b b' P S S' Hb Hb').
    reflexivity.
Qed.

(** The statistical median of a collection of readings is determined up to
    equality of numbers. *)
Lemma statisticalMedian_unique (xs : list Q) (m m' : Q) :
  statisticalMedian xs m -> statisticalMedian xs m' -> m == m'.
Proof.
  intros (s & P & S & M) (s' & P' & S' & M').
  apply (medianOfSorted_unique s s' m m'); try assumption.
  eapply Permutation_trans; [apply Permutation_sym; exact P | exact P'].
Qed.

Lemma sortedValues_presentValues field vals :
  sortedValues field vals = NumberSort.sort (presentValues field vals).
Proof. reflexivity. Qed.

Lemma mediansOver_for (metric : MetricKey) (vals : list DailyMetrics.t) :
  baselineFor metric (mediansOver vals) =
  nullish (median (sortedValues (reading metric) vals)) 0.
Proof. destruct metric; reflexivity. Qed.

Lemma window_is_trailing_min14_witness :
  mockDailyMetrics <> [] /\
  values mockDailyMetrics = trailingWindow mockDailyMetrics /\
  List.length (values mockDailyMetrics) = 13%nat.
Proof.
  assert (NE : mockDailyMetrics <> []) by discriminate.
  split; [exact NE|].
  destruct (window_is_trailing_min14 mockDailyMetrics NE) as (Hw & _ & Hl & _).
  split; [exact Hw | exact Hl].
Defined.

(** Sixteen records: the window keeps the last fourteen. *)
Example window_of_sixteen :
  let sixteen := firstn 3 mockDailyMetrics ++ mockDailyMetrics in
  values sixteen = skipn 2 sixteen /\ List.length (values sixteen) = 14%nat.
Proof. split; reflexivity. Qed.

(** An even number of present readings: the mean of the two central ones. *)
Example median_of_four : median [1; 2; 4; 8] = Some ((2 + 4) / 2).
Proof. reflexivity. Qed.

Lemma errors_exactly_on_short_inputs_witness :
  List.length (firstn 2 mockDailyMetrics) = 2%nat /\
  exists r, determineDecisionPhase (firstn 2 mockDailyMetrics) = inr r.
Proof.
  assert (H : List.length (firstn 2 mockDailyMetrics) = 2%nat) by reflexivity.
  split; [exact H|].
  destruct (errors_exactly_on_short_inputs (firstn 2 mockDailyMetrics))
    as (_ & _ & _ & _ & _ & _ & H2).
  exact (H2 H).
Defined.

(** ** The mock scenario *)

(** C6.  On the thirteen mock records the baseline is
    [{hrv: 47, sleep: 7.8, load: 14.0}]; today [(38, 6.8, 17.0)] and
    yesterday [(40, 7.0, 16.5)] both classify as [(lower, lower, higher)];
    the consecutive-lower count is 2; and the decision is
    [CONSIDER_ADJUSTMENT] with the reason "2 recovery signals have been
    outside baseline for 2 consecutive days.". *)
Theorem mock_scenario :
  let baseline :=
    {| Baseline.hrv := 47; Baseline.sleep := 7.8; Baseline.load := 14.0 |} in
  let today := day "2024-01-13" 38 6.8 17.0 in
  let yesterday := day "2024-01-12" 40 7.0 16.5 in
  let verdicts :=
    {| ComparisonResult.hrv := Some lower;
       ComparisonResult.sleep := Some lower;
       ComparisonResult.load := Some higher |} in
  List.length mockDailyMetrics = 13%nat /\
  map (fun m => (DailyMetrics.hrv m, DailyMetrics.sleep m, DailyMetrics.load m))
      mockDailyMetrics =
    [ (Some 45, Some 7.5, Some 12.5); (Some 48, Some 8.0, Some 14.2);
      (Some 46, Some 7.8, Some 13.8); (Some 50, Some 8.2, Some 11.5);
      (Some 47, Some 7.9, Some 15.1); (Some 49, Some 8.1, Some 13.2);
      (Some 48, Some 8.0, Some 14.0); (Some 46, Some 7.7, Some 12.8);
      (Some 51, Some 8.3, Some 11.0); (Some 47, Some 7.6, Some 14.5);
      (Some 42, Some 7.2, Some 16.0); (Some 40, Some 7.0, Some 16.5);
      (Some 38, Some 6.8, Some 17.0) ] /\
  calculateBaseline mockDailyMetrics = inr baseline /\
  nth_error mockDailyMetrics 12 = Some today /\
  nth_error mockDailyMetrics 11 = Some yesterday /\
  dayComparison today baseline = verdicts /\
  dayComparison yesterday baseline = verdicts /\
  consecutiveLower (dayComparison today baseline)
    (dayComparison yesterday baseline) = 2%Z /\
  consecutiveHigher (dayComparison today baseline)
    (dayComparison yesterday baseline) = 1%Z /\
  determineDecisionPhase mockDailyMetrics =
  inr {| Decision.phase := CONSIDER_ADJUSTMENT;
         Decision.comparison := verdicts;
         Decision.reason :=
           "2 recovery signals have been outside baseline for 2 consecutive days." |}.
Proof.
  cbv zeta. repeat split; vm_compute; reflexivity.
Qed.

(* ================================================================= *)
(** * Further properties of the engine *)

(** ** The window *)

Lemma values_skipn metrics :
  values metrics = skipn (List.length metrics - 14) metrics.
Proof. rewrite values_recentMetrics. apply recentMetrics_skipn. Qed.

Lemma values_app_recent (old recent : list DailyMetrics.t) :
  (14 <= List.length recent)%nat -> values (old ++ recent) = values recent.
Proof.
  intros H. rewrite !values_skipn, length_app, skipn_app.
  rewrite skipn_all2 by lia. simpl. f_equal. lia.
Qed.

(** The window always keeps the last two records. *)
Lemma values_app_last2 (prefix : list DailyMetrics.t) (y t : DailyMetrics.t) :
  values (prefix ++ [y; t]) =
  skipn (List.length prefix - 12) prefix ++ [y; t].
Proof.
  rewrite values_skipn, length_app, skipn_app. simpl List.length.
  replace (List.length prefix + 2 - 14)%nat with (List.length prefix - 12)%nat by lia.
  replace (List.length prefix - 12 - List.length prefix)%nat with 0%nat by lia.
  reflexivity.
Qed.

(** X1.  Records older than the fourteen most recent ones play no part: the
    baseline and the decision are those of the recent records alone. *)
Theorem older_history_is_ignored (old recent : list DailyMetrics.t) :
  (14 <= List.length recent)%nat ->
  calculateBaseline (old ++ recent) = calculateBaseline recent /\
  determineDecisionPhase (old ++ recent) = determineDecisionPhase recent.
Proof.
  intros H.
  assert (H2 : (2 <= Array.length recent)%Z) by (unfold Array.length; lia).
  apply two_or_more in H2. destruct H2 as (prefix & y & t & E).
  pose proof (values_app_recent old recent H) as Hv.
  pose proof (determineDecisionPhase_run prefix y t) as [Hb Hr].
  pose proof (determineDecisionPhase_run (old ++ prefix) y t) as [Hb' Hr'].
  cbv zeta in Hb, Hr, Hb', Hr'.
  rewrite <- app_assoc in Hb', Hr'. rewrite <- E in *.
  rewrite Hv in Hb', Hr'.
  split; congruence.
Qed.

Lemma older_history_is_ignored_witness :
  (14 <= List.length (mockDailyMetrics ++ mockDailyMetrics))%nat /\
  calculateBaseline (firstn 5 mockDailyMetrics ++ mockDailyMetrics ++ mockDailyMetrics)
  = calculateBaseline (mockDailyMetrics ++ mockDailyMetrics).
Proof.
  assert (H : (14 <= List.length (mockDailyMetrics ++ mockDailyMetrics))%nat)
    by (simpl; lia).
  split; [exact H|].
  exact (proj1 (older_history_is_ignored (firstn 5 mockDailyMetrics)
                  (mockDailyMetrics ++ mockDailyMetrics) H)).
Defined.

(** ** Where the baseline lies *)

Local Open Scope Q_scope.

Lemma mediansOver_statisticalMedian (metric : MetricKey) (vals : list DailyMetrics.t) :
  presentValues (reading metric) vals <> [] ->
  statisticalMedian (presentValues (reading metric) vals)
    (baselineFor metric (mediansOver vals)).
Proof.
  intros NE. rewrite mediansOver_for, sortedValues_presentValues.
  destruct (median_medianOfSorted _ (sort_nonempty _ NE)) as (m & Hm & Hs).
  rewrite Hm. simpl nullish.
  exists (NumberSort.sort (presentValues (reading metric) vals)).
  split; [apply sort_permutation|].
  split; [apply StronglySorted_Sorted, sort_sorted | exact Hs].
Qed.

Lemma mediansOver_fallback (metric : MetricKey) (vals : list DailyMetrics.t) :
  presentValues (reading metric) vals = [] ->
  baselineFor metric (mediansOver vals) = 0.
Proof.
  intros E. rewrite mediansOver_for, sortedValues_presentValues, E. reflexivity.
Qed.

(** X2.  When a metric has an odd number of present readings in the window,
    its baseline is one of those readings, and so lies within any bounds
    that hold for all of them. *)
Theorem baseline_within_readings (metrics : list DailyMetrics.t)
    (metric : MetricKey) :
  metrics <> [] ->
  Nat.odd (List.length (presentValues (reading metric) (values metrics))) = true ->
  exists b,
    calculateBaseline metrics = inr b /\
    In (baselineFor metric b) (presentValues (reading metric) (values metrics)) /\
    forall lo hi,
      Forall (fun x => lo <= x <= hi) (presentValues (reading metric) (values metrics)) ->
      lo <= baselineFor metric b <= hi.
Proof.
  intros NE Ho. exists (mediansOver (values metrics)).
  split; [now apply calculateBaseline_nonempty|].
  assert (Hp : presentValues (reading metric) (values metrics) <> [])
    by (intros E; rewrite E in Ho; discriminate).
  pose proof (mediansOver_statisticalMedian metric (values metrics) Hp)
    as (s & P & _ & M).
  assert (Hin : In (baselineFor metric (mediansOver (values metrics)))
                   (presentValues (reading metric) (values metrics))).
  { rewrite (Permutation_length P) in Ho.
    destruct M as [m _ Hm | a b He _ _].
    - apply (Permutation_in _ (Permutation_sym P)). eapply nth_error_In; eauto.
    - rewrite <- Nat.negb_odd, Ho in He. discriminate. }
  split; [exact Hin|].
  intros lo hi F. rewrite Forall_forall in F. now apply F.
Qed.

Lemma baseline_within_readings_witness :
  mockDailyMetrics <> [] /\
  Nat.odd (List.length (presentValues (reading key_hrv) (values mockDailyMetrics))) = true /\
  exists b, calculateBaseline mockDailyMetrics = inr b /\
            In (baselineFor key_hrv b)
               (presentValues (reading key_hrv) (values mockDailyMetrics)).
Proof.
  assert (NE : mockDailyMetrics <> []) by discriminate.
  assert (Ho : Nat.odd (List.length (presentValues (reading key_hrv)
                                       (values mockDailyMetrics))) = true)
    by reflexivity.
  split; [exact NE|]. split; [exact Ho|].
  destruct (baseline_within_readings mockDailyMetrics key_hrv NE Ho) as (b & Hb & Hin & _).
  exists b. split; assumption.
Defined.


(** ** The order of the records inside the window *)

Lemma filterNotNull_permutation {A : Type} (l l' : list (option A)) :
  Permutation l l' -> Permutation (Array.filterNotNull l) (Array.filterNotNull l').
Proof.
  induction 1 as [| a l l' _ IH | a b l | l l' l'' _ IH1 _ IH2].
  - constructor.
  - destruct a; simpl; [constructor|]; exact IH.
  - destruct a, b; simpl; try apply Permutation_refl. constructor.
  - eapply Permutation_trans; eauto.
Qed.

Lemma presentValues_permutation field (vals vals' : list DailyMetrics.t) :
  Permutation vals vals' ->
  Permutation (presentValues field vals) (presentValues field vals').
Proof.
  intros P. unfold presentValues.
  apply filterNotNull_permutation, Permutation_map, P.
Qed.

Lemma statisticalMedian_permutation (xs xs' : list Q) (m : Q) :
  Permutation xs xs' -> statisticalMedian xs m -> statisticalMedian xs' m.
Proof.
  intros P (s & Ps & S & M). exists s. split; [|tauto].
  eapply Permutation_trans; [apply Permutation_sym; exact P | exact Ps].
Qed.

(** X3.  The baseline does not depend on the order in which the records of the
    window are given: rearranging them leaves each of its three values the
    same number. *)
Theorem baseline_ignores_order_in_window (metrics metrics' : list DailyMetrics.t) :
  metrics <> [] ->
  Permutation (values metrics) (values metrics') ->
  exists b b',
    calculateBaseline metrics = inr b /\
    calculateBaseline metrics' = inr b' /\
    forall metric, baselineFor metric b == baselineFor metric b'.
Proof.
  intros NE P.
  assert (NE' : metrics' <> []).
  { intros ->. apply NE.
    assert (E : values metrics = []) by (apply Permutation_nil; symmetry; exact P).
    rewrite values_skipn in E. apply skipn_all_iff in E.
    destruct metrics; [reflexivity | simpl in E; lia]. }
  exists (mediansOver (values metrics)), (mediansOver (values metrics')).
  split; [now apply calculateBaseline_nonempty|].
  split; [now apply calculateBaseline_nonempty|].
  intros metric.
  pose proof (presentValues_permutation (reading metric) _ _ P) as Pp.
  destruct (presentValues (reading metric) (values metrics)) as [| x xs] eqn:E.
  - apply Permutation_nil in Pp.
    rewrite (mediansOver_fallback metric _ E), (mediansOver_fallback metric _ Pp).
    reflexivity.
  - assert (N1 : presentValues (reading metric) (values metrics) <> [])
      by (rewrite E; discriminate).
    assert (N2 : presentValues (reading metric) (values metrics') <> []).
    { intros E'. rewrite E' in Pp. apply Permutation_sym, Permutation_nil in Pp.
      discriminate. }
    apply (statisticalMedian_unique (presentValues (reading metric) (values metrics'))).
    + apply (statisticalMedian_permutation (presentValues (reading metric) (values metrics))).
      * rewrite E. exact Pp.
      * now apply mediansOver_statisticalMedian.
    + now apply mediansOver_statisticalMedian.
Qed.

Lemma baseline_ignores_order_in_window_witness :
  mockDailyMetrics <> [] /\
  exists b b',
    calculateBaseline mockDailyMetrics = inr b /\
    calculateBaseline (rev mockDailyMetrics) = inr b' /\
    baselineFor key_load b == baselineFor key_load b'.
Proof.
  assert (NE : mockDailyMetrics <> []) by discriminate.
  split; [exact NE|].
  assert (P : Permutation (values mockDailyMetrics) (values (rev mockDailyMetrics))).
  { change (values mockDailyMetrics) with mockDailyMetrics.
    change (values (rev mockDailyMetrics)) with (rev mockDailyMetrics).
    apply Permutation_rev. }
  destruct (baseline_ignores_order_in_window _ _ NE P) as (b & b' & H1 & H2 & H3).
  exists b, b'. split; [exact H1|]. split; [exact H2|]. apply H3.
Defined.

(** ** Readings on either side of the baseline *)

Lemma countAbove_cons (x a : Q) (l : list Q) :
  countAbove x (a :: l) =
  ((if Qle_bool a x then 0 else 1) + countAbove x l)%nat.
Proof. unfold countAbove. simpl. destruct (Qle_bool a x); reflexivity. Qed.

Lemma countAbove_countAtMost (x : Q) (l : list Q) :
  (countAbove x l + countAtMost x l = List.length l)%nat.
Proof.
  induction l as [| a l IH]; [reflexivity|].
  rewrite countAbove_cons, countAtMost_cons. simpl List.length.
  destruct (Qle_bool a x); lia.
Qed.



Lemma countAbove_permutation (x : Q) (l l' : list Q) :
  Permutation l l' -> countAbove x l = countAbove x l'.
Proof.
  intros P.
  pose proof (countAbove_countAtMost x l) as H.
  pose proof (countAbove_countAtMost x l') as H'.
  rewrite (countAtMost_permutation x l l' P) in H.
  rewrite (Permutation_length P) in H. lia.
Qed.

Lemma countBelow_monotone (x x' : Q) (l : list Q) :
  x <= x' -> (countBelow x l <= countBelow x' l)%nat.
Proof.
  intros Hx. induction l as [| a l IH]; [reflexivity|].
  rewrite !countBelow_cons.
  destruct (Qle_bool x a) eqn:E1, (Qle_bool x' a) eqn:E2; try lia.
  apply Qle_bool_iff in E2.
  assert (Qle_bool x a = true) by (apply Qle_bool_iff; lra). congruence.
Qed.

Lemma countAtMost_monotone (x x' : Q) (l : list Q) :
  x <= x' -> (countAtMost x l <= countAtMost x' l)%nat.
Proof.
  intros Hx. induction l as [| a l IH]; [reflexivity|].
  rewrite !countAtMost_cons.
  destruct (Qle_bool a x) eqn:E1, (Qle_bool a x') eqn:E2; try lia.
  apply Qle_bool_iff in E1.
  assert (Qle_bool a x' = true) by (apply Qle_bool_iff; lra). congruence.
Qed.

(** At most half of a sorted sequence is strictly below its median, and at
    most half strictly above. *)
Lemma medianOfSorted_balance (s : list Q) (m : Q) :
  StronglySorted Qle s -> medianOfSorted s m ->
  (2 * countBelow m s <= List.length s)%nat /\
  (2 * countAbove m s <= List.length s)%nat.
Proof.
  intros S M.
  pose proof (countAbove_countAtMost m s) as Hsum.
  destruct M as [m Ho Hm | a b He Ha Hb].
  - apply Nat.odd_spec in Ho. destruct Ho as [k Hk].
    assert (En : (List.length s / 2 = k)%nat)
      by (symmetry; apply (Nat.div_unique _ 2 k 1); lia).
    rewrite En in Hm.
    pose proof (rank_in_sorted s S k m Hm). lia.
  - apply Nat.even_spec in He. destruct He as [k Hk].
    assert (En : (List.length s / 2 = k)%nat)
      by (rewrite Hk, Nat.mul_comm; apply Nat.div_mul; lia).
    rewrite En in Ha, Hb.
    assert (Hk1 : (1 <= k)%nat).
    { destruct k; [|lia]. destruct s; [discriminate Hb | simpl in Hk; lia]. }
    pose proof (rank_in_sorted s S _ a Ha) as [_ Ra].
    pose proof (rank_in_sorted s S _ b Hb) as [Rb _].
    assert (Hab : a <= b).
    { apply Qnot_lt_le. intros Lt.
      pose proof (countAtMost_le_countBelow b a s Lt).
      pose proof (rank_in_sorted s S _ b Hb).
      pose proof (rank_in_sorted s S _ a Ha). lia. }
    assert (E : (a + b) / 2 == (a + b) * (1 # 2)) by field.
    assert (Hlo : a <= (a + b) / 2) by (rewrite E; lra).
    assert (Hhi : (a + b) / 2 <= b) by (rewrite E; lra).
    pose proof (countBelow_monotone _ _ s Hhi).
    pose proof (countAtMost_monotone _ _ s Hlo).
    lia.
Qed.

Lemma statisticalMedian_balance (xs : list Q) (m : Q) :
  statisticalMedian xs m ->
  (2 * countBelow m xs <= List.length xs)%nat /\
  (2 * countAbove m xs <= List.length xs)%nat.
Proof.
  intros (s & P & S & M).
  assert (T : Relations_1.Transitive Qle) by (intros x y z; apply Qle_trans).
  apply (Sorted_StronglySorted T) in S.
  destruct (medianOfSorted_balance s m S M) as [B A].
  rewrite (countBelow_permutation m xs s P), (countAbove_permutation m xs s P).
  rewrite (Permutation_length P). split; assumption.
Qed.

(** X4.  When a metric has an odd number of present readings in the window,
    at most half of them are strictly below its baseline and at most half
    strictly above it. *)
Theorem baseline_splits_readings (metrics : list DailyMetrics.t) (metric : MetricKey) :
  metrics <> [] ->
  Nat.odd (List.length (presentValues (reading metric) (values metrics))) = true ->
  exists b,
    calculateBaseline metrics = inr b /\
    let xs := presentValues (reading metric) (values metrics) in
    (2 * countBelow (baselineFor metric b) xs <= List.length xs)%nat /\
    (2 * countAbove (baselineFor metric b) xs <= List.length xs)%nat.
Proof.
  intros NE Ho. exists (mediansOver (values metrics)).
  split; [now apply calculateBaseline_nonempty|].
  intros xs. apply statisticalMedian_balance.
  apply mediansOver_statisticalMedian.
  intros E. fold xs in Ho. subst xs. rewrite E in Ho. discriminate.
Qed.

Lemma baseline_splits_readings_witness :
  mockDailyMetrics <> [] /\
  Nat.odd (List.length (presentValues (reading key_hrv) (values mockDailyMetrics))) = true /\
  exists b,
    calculateBaseline mockDailyMetrics = inr b /\
    (2 * countBelow (baselineFor key_hrv b)
           (presentValues (reading key_hrv) (values mockDailyMetrics)) <= 13)%nat.
Proof.
  assert (NE : mockDailyMetrics <> []) by discriminate.
  assert (Ho : Nat.odd (List.length (presentValues (reading key_hrv)
                                       (values mockDailyMetrics))) = true)
    by reflexivity.
  split; [exact NE|]. split; [exact Ho|].
  destruct (baseline_splits_readings mockDailyMetrics key_hrv NE Ho) as (b & Hb & H & _).
  exists b. split; [exact Hb | exact H].
Defined.

(** ** Today and yesterday inside their own baseline *)

Lemma filterNotNull_app {A : Type} (l l' : list (option A)) :
  Array.filterNotNull (l ++ l') = Array.filterNotNull l ++ Array.filterNotNull l'.
Proof.
  induction l as [| [a|] l IH]; simpl; [reflexivity | f_equal; exact IH | exact IH].
Qed.

Lemma presentValues_app field (vals vals' : list DailyMetrics.t) :
  presentValues field (vals ++ vals') =
  presentValues field vals ++ presentValues field vals'.
Proof. unfold presentValues. rewrite map_app. apply filterNotNull_app. Qed.

(** The present readings of the window end with those of yesterday and of
    today. *)
Lemma presentValues_window_last2 (metric : MetricKey)
    (prefix : list DailyMetrics.t) (y t : DailyMetrics.t) :
  presentValues (reading metric) (values (prefix ++ [y; t])) =
  presentValues (reading metric) (skipn (List.length prefix - 12) prefix) ++
  presentValues (reading metric) [y; t].
Proof. rewrite values_app_last2. apply presentValues_app. Qed.




(** X5.  In a decision, a reading of today or of yesterday is always one of the
    readings its own baseline was computed from: for a metric that has a
    reading on one of the two days the window is not empty, [median] does
    not return [null], and the fall-back [0] is not taken. *)
Theorem own_reading_is_in_window (metrics : list DailyMetrics.t) :
  (2 <= List.length metrics)%nat ->
  exists yesterday today baseline,
    nth_error metrics (List.length metrics - 2) = Some yesterday /\
    nth_error metrics (List.length metrics - 1) = Some today /\
    calculateBaseline metrics = inr baseline /\
    forall metric v,
      reading metric today = Some v \/ reading metric yesterday = Some v ->
      In v (presentValues (reading metric) (values metrics)) /\
      median (sortedValues (reading metric) (values metrics)) <> None.
Proof.
  intros H.
  assert (H2 : (2 <= Array.length metrics)%Z) by (unfold Array.length; lia).
  apply two_or_more in H2. destruct H2 as (prefix & y & t & E).
  destruct (determineDecisionPhase_spec metrics H)
    as (y' & t' & b & Hy & Ht & Hb & _).
  assert (Ey : y' = y /\ t' = t).
  { subst metrics. rewrite length_app in Hy, Ht. simpl List.length in Hy, Ht.
    rewrite nth_error_app2 in Hy, Ht by lia.
    replace (List.length prefix + 2 - 2 - List.length prefix)%nat with 0%nat in Hy by lia.
    replace (List.length prefix + 2 - 1 - List.length prefix)%nat with 1%nat in Ht by lia.
    simpl in Hy, Ht. split; congruence. }
  destruct Ey as [-> ->].
  exists y, t, b. do 3 (split; [assumption|]).
  intros metric v Hv.
  assert (Hin : In v (presentValues (reading metric) (values metrics))).
  { subst metrics. rewrite presentValues_window_last2. apply in_or_app. right.
    unfold presentValues. simpl.
    destruct Hv as [Hv | Hv]; rewrite Hv.
    - destruct (reading metric y); simpl; auto.
    - simpl. auto. }
  split; [exact Hin|].
  assert (NEp : presentValues (reading metric) (values metrics) <> [])
    by (intros E0; rewrite E0 in Hin; exact Hin).
  rewrite sortedValues_presentValues.
  destruct (median_medianOfSorted _ (sort_nonempty _ NEp)) as (m & Hm & _).
  rewrite Hm. discriminate.
Qed.

Lemma own_reading_is_in_window_witness :
  (2 <= List.length mockDailyMetrics)%nat /\
  exists today baseline,
    nth_error mockDailyMetrics 12 = Some today /\
    calculateBaseline mockDailyMetrics = inr baseline /\
    forall v, reading key_hrv today = Some v ->
              In v (presentValues (reading key_hrv) (values mockDailyMetrics)).
Proof.
  assert (H : (2 <= List.length mockDailyMetrics)%nat) by (simpl; lia).
  split; [exact H|].
  destruct (own_reading_is_in_window mockDailyMetrics H)
    as (y & t & b & _ & Ht & Hb & Hin).
  exists t, b. split; [exact Ht|]. split; [exact Hb|].
  intros v Hv. apply (Hin key_hrv v). left. exact Hv.
Defined.

(** ** How much data a trend needs *)











Lemma filter_length_le {A : Type} (f g : A -> bool) (l : list A) :
  (forall x, f x = true -> g x = true) ->
  (List.length (filter f l) <= List.length (filter g l))%nat.
Proof.
  intros H. induction l as [| a l IH]; [reflexivity|].
  simpl. destruct (f a) eqn:Ef.
  - rewrite (H a Ef). simpl. lia.
  - destruct (g a); simpl; lia.
Qed.

Lemma consecutiveIn_present dir (y t : DailyMetrics.t) (b : Baseline.t) metric :
  consecutiveIn dir (dayComparison t b) (dayComparison y b) metric = true ->
  notNull (reading metric t) && notNull (reading metric y) = true.
Proof.
  intros H. apply consecutiveIn_true_iff in H. destruct H as [Ht Hy].
  rewrite dayComparison_get in Ht, Hy.
  destruct (reading metric t), (reading metric y); try reflexivity; discriminate.
Qed.

(** X8.  A decision of [CONSIDER_ADJUSTMENT] needs at least two metrics with a
    reading on both today and yesterday: when fewer than two metrics have
    both readings (a day without data, for one), the engine answers
    [OBSERVE]. *)
Theorem trend_needs_two_metrics_on_both_days (prefix : list DailyMetrics.t)
    (yesterday today : DailyMetrics.t) :
  exists r,
    determineDecisionPhase (prefix ++ [yesterday; today]) = inr r /\
    (Decision.phase r = CONSIDER_ADJUSTMENT ->
       (2 <= List.length (presentOnBoth yesterday today))%nat) /\
    ((List.length (presentOnBoth yesterday today) < 2)%nat ->
       Decision.phase r = OBSERVE /\
       Decision.reason r = "Observing current state."%string).
Proof.
  destruct (determineDecisionPhase_run prefix yesterday today) as [_ Hr].
  cbv zeta in Hr.
  set (b := mediansOver (values (prefix ++ [yesterday; today]))) in *.
  set (tc := dayComparison today b) in *. set (yc := dayComparison yesterday b) in *.
  assert (Hle : forall dir,
            (Array.length (filter (consecutiveIn dir tc yc) metricsToCheck)
             <= Z.of_nat (List.length (presentOnBoth yesterday today)))%Z).
  { intros dir. unfold Array.length, presentOnBoth.
    apply inj_le, filter_length_le. intros metric.
    apply consecutiveIn_present. }
  eexists. split; [exact Hr|].
  pose proof (Hle lower) as Hl. pose proof (Hle higher) as Hh.
  fold (consecutiveLower tc yc) in Hl. fold (consecutiveHigher tc yc) in Hh.
  destruct (Compare_dec.le_lt_dec 2 (List.length (presentOnBoth yesterday today)))
    as [G | L].
  - split; [intros _; exact G | intros; lia].
  - rewrite phaseDecision_observe by lia. simpl.
    split; [discriminate | intros _; split; reflexivity].
Qed.

(** A day without any reading. *)
Example day_without_data_observes :
  let gap := {| DailyMetrics.date := "2024-01-14"; DailyMetrics.hrv := None;
                DailyMetrics.sleep := None; DailyMetrics.load := None |} in
  exists r, determineDecisionPhase (mockDailyMetrics ++ [gap]) = inr r /\
            Decision.phase r = OBSERVE.
Proof. cbv zeta. eexists. split; reflexivity. Qed.

(** ** The classifier as a function of the reading *)

Local Open Scope Q_scope.

(** X9.  A larger reading never gets a verdict further down: for a fixed
    baseline and tolerance, the verdict goes from [lower] over [within] to
    [higher] as the reading grows. *)
Theorem compareToBaseline_monotone (v v' b p : Q) (c c' : MetricComparison) :
  v <= v' ->
  compareToBaseline (Some v) b p = Some c ->
  compareToBaseline (Some v') b p = Some c' ->
  (verdictRank c <= verdictRank c')%Z.
Proof.
  intros Hv. unfold compareToBaseline.
  destruct (Qlt_le_dec v _) as [L | L], (Qlt_le_dec v' _) as [L' | L'];
    try destruct (Qlt_le_dec _ v) as [U | U];
    try destruct (Qlt_le_dec _ v') as [U' | U'];
    intros E E'; injection E as <-; injection E' as <-; simpl;
    try lia; exfalso; lra.
Qed.

Lemma compareToBaseline_monotone_witness :
  40 <= 47 /\
  (verdictRank lower <= verdictRank within)%Z.
Proof.
  assert (H : 40 <= 47) by (vm_compute; discriminate).
  split; [exact H|].
  apply (compareToBaseline_monotone 40 47 47 5 lower within H); reflexivity.
Defined.

(** ** The dates *)

Lemma map_field_readings (l : list DailyMetrics.t) :
  map DailyMetrics.hrv l = map (fun r => fst (fst r)) (map readings l) /\
  map DailyMetrics.sleep l = map (fun r => snd (fst r)) (map readings l) /\
  map DailyMetrics.load l = map (fun r => snd r) (map readings l).
Proof. rewrite !map_map. repeat split. Qed.

Lemma mediansOver_readings (vals vals' : list DailyMetrics.t) :
  map readings vals = map readings vals' -> mediansOver vals = mediansOver vals'.
Proof.
  intros E. unfold mediansOver, sortedValues.
  destruct (map_field_readings vals) as (H1 & H2 & H3).
  destruct (map_field_readings vals') as (H1' & H2' & H3').
  rewrite H1, H2, H3, H1', H2', H3', E. reflexivity.
Qed.

Lemma dayComparison_readings (d d' : DailyMetrics.t) (b : Baseline.t) :
  readings d = readings d' -> dayComparison d b = dayComparison d' b.
Proof.
  unfold readings, dayComparison. intros E. injection E as -> -> ->. reflexivity.
Qed.

(** X12.  The engine never reads the dates: two inputs that carry the same
    readings in the same order get the same baseline and the same decision
    (or the same error), whatever their date fields say. *)
Theorem dates_are_not_read (metrics metrics' : list DailyMetrics.t) :
  map readings metrics = map readings metrics' ->
  calculateBaseline metrics = calculateBaseline metrics' /\
  determineDecisionPhase metrics = determineDecisionPhase metrics'.
Proof.
  intros E.
  assert (Hlen : List.length metrics = List.length metrics').
  { apply (f_equal (@List.length _)) in E. rewrite !length_map in E. exact E. }
  assert (Hv : mediansOver (values metrics) = mediansOver (values metrics')).
  { apply mediansOver_readings. rewrite !values_skipn, <- !skipn_map, E, Hlen.
    reflexivity. }
  assert (Hb : calculateBaseline metrics = calculateBaseline metrics').
  { destruct metrics as [| m ms], metrics' as [| m' ms']; try discriminate.
    - reflexivity.
    - rewrite !calculateBaseline_nonempty by discriminate. now rewrite Hv. }
  split; [exact Hb|].
  destruct (Compare_dec.le_lt_dec 2 (List.length metrics)) as [G | L].
  - assert (G2 : (2 <= Array.length metrics)%Z) by (unfold Array.length; lia).
    assert (G2' : (2 <= Array.length metrics')%Z) by (unfold Array.length; lia).
    apply two_or_more in G2, G2'.
    destruct G2 as (p & y & t & ->), G2' as (p' & y' & t' & ->).
    rewrite !map_app in E. simpl map in E.
    change [readings y; readings t] with ([readings y] ++ [readings t]) in E.
    change [readings y'; readings t'] with ([readings y'] ++ [readings t']) in E.
    rewrite !app_assoc in E.
    apply app_inj_tail in E. destruct E as [E Et].
    apply app_inj_tail in E. destruct E as [_ Ey].
    destruct (determineDecisionPhase_run p y t) as [_ Hr].
    destruct (determineDecisionPhase_run p' y' t') as [_ Hr'].
    cbv zeta in Hr, Hr'. rewrite Hr, Hr', Hv.
    rewrite (dayComparison_readings t t' _ Et), (dayComparison_readings y y' _ Ey).
    reflexivity.
  - rewrite !determineDecisionPhase_short by (unfold Array.length; lia).
    reflexivity.
Qed.

Lemma dates_are_not_read_witness :
  let undated :=
    map (fun m => {| DailyMetrics.date := "";
                     DailyMetrics.hrv := DailyMetrics.hrv m;
                     DailyMetrics.sleep := DailyMetrics.sleep m;
                     DailyMetrics.load := DailyMetrics.load m |}) mockDailyMetrics in
  map readings mockDailyMetrics = map readings undated /\
  determineDecisionPhase mockDailyMetrics = determineDecisionPhase undated.
Proof.
  cbv zeta.
  match goal with |- ?A /\ _ => assert (H : A) by reflexivity end.
  split; [exact H|].
  exact (proj2 (dates_are_not_read _ _ H)).
Defined.

(* ================================================================= *)
(** * The presentation *)

Local Open Scope Z_scope.

(** X13.  The page tells the four outcomes of a comparison apart, by icon and by
    text: two outcomes get the same icon, or the same text, only when they
    are the same outcome; in particular an absent reading is shown as
    [—] / "No data" and never as a verdict.  The colour is coarser: it
    separates [lower] and [higher] from each other and from the rest, and
    gives [within] and an absent reading the same colour. *)
Theorem display_distinguishes_outcomes (c c' : option MetricComparison) :
  (App.getComparisonIcon c = App.getComparisonIcon c' <-> c = c') /\
  (App.getComparisonText c = App.getComparisonText c' <-> c = c') /\
  (App.iconColor c = App.iconColor c' <->
   c = c' \/ ((c = None \/ c = Some within) /\ (c' = None \/ c' = Some within))).
Proof.
  destruct c as [[ | | ]|], c' as [[ | | ]|]; simpl;
    repeat split; intros H; try reflexivity; try discriminate;
    try (left; reflexivity);
    try (right; split; [now (left + right) | now (left + right)]);
    try (destruct H as [H | [[H | H] [H' | H']]]; try discriminate; reflexivity).
Qed.

(* ================================================================= *)
(** * The adapter *)

(** ** Maps *)

Section JsMapFacts.
Context {V : Type}.
Implicit Types (m : JsMap.t V) (k : string).

Lemma has_true_iff m k : JsMap.has m k = true <-> In k (map fst m).
Proof.
  unfold JsMap.has. rewrite existsb_exists, in_map_iff. split.
  - intros (e & He & Hk). apply String.eqb_eq in Hk. now exists e.
  - intros (e & Hk & He). exists e. split; [exact He | now apply String.eqb_eq].
Qed.

Lemma has_false_iff m k : JsMap.has m k = false <-> ~ In k (map fst m).
Proof.
  rewrite <- has_true_iff. destruct (JsMap.has m k); split; intros H;
    try reflexivity; try discriminate; try (intros A; discriminate).
  exfalso. now apply H.
Qed.

Lemma get_none_iff m k : JsMap.get m k = None <-> ~ In k (map fst m).
Proof.
  unfold JsMap.get. induction m as [| [k0 o] m IH]; simpl.
  - tauto.
  - destruct (String.eqb k0 k) eqn:E; simpl.
    + apply String.eqb_eq in E. split; [discriminate | intros H; exfalso; auto].
    + apply String.eqb_neq in E. rewrite IH. tauto.
Qed.

Lemma set_absent m k (v : V) :
  ~ In k (map fst m) -> JsMap.set m k v = m ++ [(k, v)].
Proof.
  induction m as [| [k0 o] m IH]; simpl; intros H; [reflexivity|].
  destruct (String.eqb k0 k) eqn:E.
  - apply String.eqb_eq in E. exfalso. auto.
  - rewrite IH by tauto. reflexivity.
Qed.

Lemma keys_update m k (f : V -> V) : map fst (JsMap.update m k f) = map fst m.
Proof.
  induction m as [| [k0 o] m IH]; simpl; [reflexivity|].
  destruct (String.eqb k0 k); simpl; [reflexivity | now rewrite IH].
Qed.

Lemma get_update_same m k (f : V -> V) :
  JsMap.get (JsMap.update m k f) k = option_map f (JsMap.get m k).
Proof.
  unfold JsMap.get. induction m as [| [k0 o] m IH]; simpl; [reflexivity|].
  destruct (String.eqb k0 k) eqn:E; simpl; rewrite E; [reflexivity | exact IH].
Qed.

Lemma get_update_other m k k' (f : V -> V) :
  k' <> k -> JsMap.get (JsMap.update m k f) k' = JsMap.get m k'.
Proof.
  intros N. unfold JsMap.get. induction m as [| [k0 o] m IH]; simpl; [reflexivity|].
  destruct (String.eqb k0 k) eqn:E; simpl.
  - apply String.eqb_eq in E. subst k0.
    replace (String.eqb k k') with false
      by (symmetry; apply String.eqb_neq; congruence).
    reflexivity.
  - destruct (String.eqb k0 k'); [reflexivity | exact IH].
Qed.

Lemma get_app_entry m k k' (v : V) :
  JsMap.get (m ++ [(k, v)]) k' =
  match JsMap.get m k' with
  | Some o => Some o
  | None => if String.eqb k k' then Some v else None
  end.
Proof.
  unfold JsMap.get. induction m as [| [k0 o] m IH]; simpl.
  - destruct (String.eqb k k'); reflexivity.
  - destruct (String.eqb k0 k'); [reflexivity | exact IH].
Qed.

Lemma get_of_in m k (o : V) :
  NoDup (map fst m) -> In (k, o) m -> JsMap.get m k = Some o.
Proof.
  unfold JsMap.get. induction m as [| [k0 o0] m IH]; simpl; intros ND H; [contradiction|].
  inversion ND as [| ? ? Hn ND']; subst.
  destruct H as [H | H].
  - injection H as -> ->. rewrite String.eqb_refl. reflexivity.
  - destruct (String.eqb k0 k) eqn:E.
    + apply String.eqb_eq in E. subst k0. exfalso. apply Hn.
      apply in_map_iff. now exists (k, o).
    + now apply IH.
Qed.

Lemma in_of_get m k (o : V) : JsMap.get m k = Some o -> In (k, o) m.
Proof.
  unfold JsMap.get. induction m as [| [k0 o0] m IH]; simpl; [discriminate|].
  destruct (String.eqb k0 k) eqn:E; simpl.
  - apply String.eqb_eq in E. intros H. injection H as ->. left. congruence.
  - intros H. right. now apply IH.
Qed.

End JsMapFacts.

(** ** Recording one item *)

Lemma record_unfold (m : JsMap.t DailyMetrics.t) (d : string)
    (f : DailyMetrics.t -> DailyMetrics.t) :
  WhoopAdapter.record m d f =
  JsMap.update (if JsMap.has m d then m
                else m ++ [(d, WhoopAdapter.emptyMetrics d)]) d f.
Proof.
  unfold WhoopAdapter.record. destruct (JsMap.has m d) eqn:E; simpl; [reflexivity|].
  rewrite set_absent; [reflexivity | now apply has_false_iff].
Qed.

Lemma keys_record m d f :
  map fst (WhoopAdapter.record m d f) =
  if JsMap.has m d then map fst m else map fst m ++ [d].
Proof.
  rewrite record_unfold, keys_update.
  destruct (JsMap.has m d); [reflexivity|].
  rewrite map_app. reflexivity.
Qed.

(** The object an assignment is applied to: the stored one, or a fresh one
    with no readings. *)
Lemma get_record_same m d f :
  JsMap.get (WhoopAdapter.record m d f) d =
  Some (f (match JsMap.get m d with
           | Some o => o
           | None => WhoopAdapter.emptyMetrics d
           end)).
Proof.
  rewrite record_unfold, get_update_same.
  destruct (JsMap.has m d) eqn:E.
  - destruct (JsMap.get m d) eqn:G; [reflexivity|].
    apply get_none_iff in G. apply has_true_iff in E. contradiction.
  - rewrite get_app_entry, String.eqb_refl.
    apply has_false_iff, get_none_iff in E. rewrite E. reflexivity.
Qed.

Lemma get_record_other m d d' f :
  d' <> d -> JsMap.get (WhoopAdapter.record m d f) d' = JsMap.get m d'.
Proof.
  intros N. rewrite record_unfold, get_update_other by exact N.
  destruct (JsMap.has m d); [reflexivity|].
  rewrite get_app_entry.
  destruct (JsMap.get m d'); [reflexivity|].
  replace (String.eqb d d') with false
    by (symmetry; apply String.eqb_neq; congruence).
  reflexivity.
Qed.

Lemma in_keys_record m d f d' :
  In d' (map fst (WhoopAdapter.record m d f)) <-> In d' (map fst m) \/ d' = d.
Proof.
  rewrite keys_record. destruct (JsMap.has m d) eqn:E.
  - apply has_true_iff in E. split; [tauto|]. intros [H | ->]; assumption.
  - rewrite in_app_iff. simpl. intuition congruence.
Qed.

Lemma NoDup_keys_record m d f :
  NoDup (map fst m) -> NoDup (map fst (WhoopAdapter.record m d f)).
Proof.
  intros ND. rewrite keys_record. destruct (JsMap.has m d) eqn:E; [exact ND|].
  apply has_false_iff in E.
  apply NoDup_app; [exact ND | repeat constructor; simpl; tauto |].
  intros x Hx [<- | []]. contradiction.
Qed.

Lemma Forall_update {V : Type} (P : string * V -> Prop) (m : JsMap.t V) k (f : V -> V) :
  Forall P m -> (forall o, P (k, o) -> P (k, f o)) -> Forall P (JsMap.update m k f).
Proof.
  intros F H. induction F as [| [k0 o] m Hp Ft IH]; simpl; [constructor|].
  destruct (String.eqb k0 k) eqn:E.
  - apply String.eqb_eq in E. subst k0. constructor; [now apply H | assumption].
  - constructor; assumption.
Qed.

Lemma keyedByDate_record m d f :
  (forall o, DailyMetrics.date (f o) = DailyMetrics.date o) ->
  keyedByDate m -> keyedByDate (WhoopAdapter.record m d f).
Proof.
  intros Hf K. rewrite record_unfold. apply Forall_update.
  - destruct (JsMap.has m d); [exact K|].
    apply Forall_app. split; [exact K | repeat constructor].
  - intros o. simpl. rewrite Hf. tauto.
Qed.

(** ** One pass over a list of items *)

Lemma lastMatching_snoc {A : Type} (p : A -> bool) (l : list A) (x : A) :
  lastMatching p (l ++ [x]) = if p x then Some x else lastMatching p l.
Proof.
  induction l as [| a l IH]; simpl.
  - destruct (p x); reflexivity.
  - rewrite IH. destruct (p x); [reflexivity|].
    destruct (lastMatching p l); reflexivity.
Qed.

Lemma lastMatching_Some {A : Type} (p : A -> bool) (l : list A) (x : A) :
  lastMatching p l = Some x -> In x l /\ p x = true.
Proof.
  induction l as [| a l IH]; simpl; [discriminate|].
  destruct (lastMatching p l) as [y|].
  - intros H. injection H as ->. destruct (IH eq_refl). tauto.
  - destruct (p a) eqn:E; [|discriminate].
    intros H. injection H as ->. tauto.
Qed.

Lemma lastMatching_None {A : Type} (p : A -> bool) (l : list A) :
  lastMatching p l = None <-> forall x, In x l -> p x = false.
Proof.
  induction l as [| a l IH]; simpl.
  - tauto.
  - destruct (lastMatching p l) as [y|] eqn:E.
    + split; [discriminate|]. intros H.
      apply lastMatching_Some in E. destruct E as [Hin Hp].
      rewrite (H y) in Hp by tauto. discriminate.
    + destruct (p a) eqn:Ea.
      * split; [discriminate|]. intros H. rewrite (H a) in Ea by tauto. discriminate.
      * split; [|reflexivity]. intros _ x [<- | Hx]; [exact Ea|].
        now apply (proj1 IH).
Qed.

Section RecordAll.
Context {X : Type}.
Variable key : X -> string.
Variable assign : X -> DailyMetrics.t -> DailyMetrics.t.
Hypothesis assign_date :
  forall x o, DailyMetrics.date (assign x o) = DailyMetrics.date o.

Lemma recordAll_snoc (items : list X) (x : X) m :
  recordAll key assign (items ++ [x]) m =
  WhoopAdapter.record (recordAll key assign items m) (key x) (assign x).
Proof. unfold recordAll. rewrite fold_left_app. reflexivity. Qed.

Lemma in_keys_recordAll (items : list X) m d :
  In d (map fst (recordAll key assign items m)) <->
  In d (map fst m) \/ In d (map key items).
Proof.
  induction items as [| x items IH] using rev_ind.
  - simpl. tauto.
  - rewrite recordAll_snoc, in_keys_record, IH, map_app, in_app_iff. simpl.
    intuition congruence.
Qed.

Lemma NoDup_keys_recordAll (items : list X) m :
  NoDup (map fst m) -> NoDup (map fst (recordAll key assign items m)).
Proof.
  intros ND. induction items as [| x items IH] using rev_ind; [exact ND|].
  rewrite recordAll_snoc. now apply NoDup_keys_record.
Qed.

Lemma keyedByDate_recordAll (items : list X) m :
  keyedByDate m -> keyedByDate (recordAll key assign items m).
Proof.
  intros K. induction items as [| x items IH] using rev_ind; [exact K|].
  rewrite recordAll_snoc. apply keyedByDate_record; [apply assign_date | exact IH].
Qed.

(** A field the pass assigns holds, for each date, the value of the last
    item recorded under that date, and is left alone when there is none. *)
Lemma fieldAt_recordAll_assigned (field : DailyMetrics.t -> option Q)
    (value : X -> option Q) (items : list X) m d :
  (forall x o, field (assign x o) = value x) ->
  fieldAt field d (recordAll key assign items m) =
  match lastMatching (fun x => String.eqb (key x) d) items with
  | Some x => value x
  | None => fieldAt field d m
  end.
Proof.
  intros Hf. induction items as [| x items IH] using rev_ind; [reflexivity|].
  rewrite recordAll_snoc, lastMatching_snoc. unfold fieldAt in *.
  destruct (String.eqb (key x) d) eqn:E.
  - apply String.eqb_eq in E. subst d. rewrite get_record_same. apply Hf.
  - apply String.eqb_neq in E. rewrite get_record_other by congruence. exact IH.
Qed.

(** A field the pass does not assign keeps its value. *)
Lemma fieldAt_recordAll_kept (field : DailyMetrics.t -> option Q)
    (items : list X) m d :
  (forall x o, field (assign x o) = field o) ->
  (forall d', field (WhoopAdapter.emptyMetrics d') = None) ->
  fieldAt field d (recordAll key assign items m) = fieldAt field d m.
Proof.
  intros Hf He. induction items as [| x items IH] using rev_ind; [reflexivity|].
  rewrite recordAll_snoc. unfold fieldAt in *.
  destruct (String.eqb_spec (key x) d) as [E | E].
  - subst d. rewrite get_record_same, Hf, <- IH.
    destruct (JsMap.get (recordAll key assign items m) (key x)); [reflexivity | apply He].
  - rewrite get_record_other by congruence. exact IH.
Qed.

End RecordAll.

(** ** The three passes and the built map *)

Lemma processRecoveries_recordAll formatDate recoveries m :
  WhoopAdapter.processRecoveries formatDate recoveries m =
  recordAll (fun r => formatDate (WhoopRecoveryResponse.created_at r))
    (fun r => WhoopAdapter.assignHrv (WhoopAdapter.extractHRV r)) recoveries m.
Proof. reflexivity. Qed.

Lemma processSleeps_recordAll formatDate sleeps m :
  WhoopAdapter.processSleeps formatDate sleeps m =
  recordAll (fun s => formatDate (WhoopSleepResponse.start s))
    (fun s => WhoopAdapter.assignSleep (WhoopAdapter.extractSleep s)) sleeps m.
Proof. reflexivity. Qed.

Lemma processWorkouts_recordAll
    (workouts : list (string * list WhoopWorkoutResponse.t)) m :
  WhoopAdapter.processWorkouts workouts m =
  recordAll fst (fun e => WhoopAdapter.assignLoad (WhoopAdapter.extractLoad (snd e)))
    workouts m.
Proof.
  unfold WhoopAdapter.processWorkouts, recordAll.
  revert m. induction workouts as [| [d ws] workouts IH]; intros m; simpl;
    [reflexivity | apply IH].
Qed.

Lemma builtMap_recordAll formatDate recoveries sleeps workouts :
  builtMap formatDate recoveries sleeps workouts =
  recordAll fst (fun e => WhoopAdapter.assignLoad (WhoopAdapter.extractLoad (snd e)))
    workouts
    (recordAll (fun s => formatDate (WhoopSleepResponse.start s))
       (fun s => WhoopAdapter.assignSleep (WhoopAdapter.extractSleep s)) sleeps
       (recordAll (fun r => formatDate (WhoopRecoveryResponse.created_at r))
          (fun r => WhoopAdapter.assignHrv (WhoopAdapter.extractHRV r))
          recoveries [])).
Proof.
  unfold builtMap.
  rewrite processWorkouts_recordAll, processSleeps_recordAll,
    processRecoveries_recordAll. reflexivity.
Qed.

Lemma NoDup_keys_builtMap formatDate recoveries sleeps workouts :
  NoDup (map fst (builtMap formatDate recoveries sleeps workouts)).
Proof.
  rewrite builtMap_recordAll.
  repeat apply NoDup_keys_recordAll. constructor.
Qed.

Lemma keyedByDate_builtMap formatDate recoveries sleeps workouts :
  keyedByDate (builtMap formatDate recoveries sleeps workouts).
Proof.
  rewrite builtMap_recordAll.
  repeat (apply keyedByDate_recordAll; [intros; reflexivity|]). constructor.
Qed.

Lemma in_keys_builtMap formatDate recoveries sleeps workouts d :
  In d (map fst (builtMap formatDate recoveries sleeps workouts)) <->
  In d (inputDates formatDate recoveries sleeps workouts).
Proof.
  rewrite builtMap_recordAll, !in_keys_recordAll. unfold inputDates.
  rewrite !in_app_iff. simpl. tauto.
Qed.

Lemma dates_of_keyed (m : JsMap.t DailyMetrics.t) :
  keyedByDate m -> map DailyMetrics.date (JsMap.values m) = map fst m.
Proof.
  unfold JsMap.values. induction 1 as [| [k o] m Hk _ IH]; simpl; [reflexivity|].
  simpl in Hk. rewrite Hk, IH. reflexivity.
Qed.

(** ** The final sort *)

Section SortBy.
Context {A : Type}.
Variable compare : A -> A -> Z.

Lemma insertBy_permutation (x : A) (l : list A) :
  Permutation (x :: l) (insertBy compare x l).
Proof.
  induction l as [| y l IH]; simpl; [apply Permutation_refl|].
  destruct (0 <? compare x y)%Z; [|apply Permutation_refl].
  eapply Permutation_trans; [apply perm_swap | apply perm_skip, IH].
Qed.

Lemma sortBy_permutation (l : list A) : Permutation l (sortBy compare l).
Proof.
  induction l as [| x l IH]; simpl; [constructor|].
  eapply Permutation_trans; [apply perm_skip, IH | apply insertBy_permutation].
Qed.

Hypothesis compare_total : forall a b, (0 < compare a b -> compare b a <= 0)%Z.

Lemma insertBy_HdRel (y x : A) (l : list A) :
  (compare y x <= 0)%Z ->
  HdRel (fun a b => compare a b <= 0)%Z y l ->
  HdRel (fun a b => compare a b <= 0)%Z y (insertBy compare x l).
Proof.
  intros Hyx Hd. destruct l as [| z l]; simpl; [now constructor|].
  destruct (0 <? compare x z)%Z; constructor; [|exact Hyx].
  now inversion Hd.
Qed.

Lemma insertBy_sorted (x : A) (l : list A) :
  Sorted (fun a b => compare a b <= 0)%Z l ->
  Sorted (fun a b => compare a b <= 0)%Z (insertBy compare x l).
Proof.
  induction 1 as [| y l S IH Hd]; simpl; [repeat constructor|].
  destruct (0 <? compare x y)%Z eqn:E.
  - apply Z.ltb_lt in E. constructor; [exact IH|].
    apply insertBy_HdRel; [now apply compare_total | exact Hd].
  - apply Z.ltb_ge in E. constructor; [now constructor|]. now constructor.
Qed.

Lemma sortBy_sorted (l : list A) :
  Sorted (fun a b => compare a b <= 0)%Z (sortBy compare l).
Proof.
  induction l as [| x l IH]; simpl; [constructor | now apply insertBy_sorted].
Qed.

End SortBy.

Lemma toDailyMetrics_permutation formatDate localeCompare recoveries sleeps workouts :
  Permutation
    (JsMap.values (builtMap formatDate recoveries sleeps workouts))
    (WhoopAdapter.toDailyMetrics formatDate localeCompare recoveries sleeps workouts).
Proof. apply sortBy_permutation. Qed.

(** ** What [toDailyMetrics] returns *)

Lemma toDailyMetrics_dates formatDate localeCompare recoveries sleeps workouts :
  Permutation
    (map fst (builtMap formatDate recoveries sleeps workouts))
    (map DailyMetrics.date
       (WhoopAdapter.toDailyMetrics formatDate localeCompare recoveries sleeps workouts)).
Proof.
  rewrite <- (dates_of_keyed _ (keyedByDate_builtMap formatDate recoveries sleeps workouts)).
  apply Permutation_map, toDailyMetrics_permutation.
Qed.

(** X16.  The adapter returns one record per date: no date occurs twice in its
    result, and the dates that occur are exactly the dates of the
    recoveries, of the sleeps and of the workout groups it was given, so the
    result has as many records as the inputs have distinct dates. *)
Theorem toDailyMetrics_one_record_per_date
    (formatDate : string -> string) (localeCompare : string -> string -> Z)
    (recoveries : list WhoopRecoveryResponse.t)
    (sleeps : list WhoopSleepResponse.t)
    (workouts : list (string * list WhoopWorkoutResponse.t)) :
  let result :=
    WhoopAdapter.toDailyMetrics formatDate localeCompare recoveries sleeps workouts in
  NoDup (map DailyMetrics.date result) /\
  (forall d,
     In d (map DailyMetrics.date result) <->
     (exists r, In r recoveries /\
                formatDate (WhoopRecoveryResponse.created_at r) = d) \/
     (exists s, In s sleeps /\ formatDate (WhoopSleepResponse.start s) = d) \/
     (exists ws, In (d, ws) workouts)) /\
  List.length result =
  List.length (nodup string_dec (inputDates formatDate recoveries sleeps workouts)).
Proof.
  intros result.
  pose proof (toDailyMetrics_dates formatDate localeCompare recoveries sleeps workouts)
    as P. fold result in P.
  pose proof (NoDup_keys_builtMap formatDate recoveries sleeps workouts) as ND.
  assert (ND' : NoDup (map DailyMetrics.date result))
    by (eapply Permutation_NoDup; eauto).
  assert (Hin : forall d, In d (map DailyMetrics.date result) <->
                          In d (inputDates formatDate recoveries sleeps workouts)).
  { intros d. rewrite <- in_keys_builtMap. split; apply Permutation_in;
      [apply Permutation_sym|]; exact P. }
  split; [exact ND'|]. split.
  - intros d. rewrite Hin. unfold inputDates. rewrite !in_app_iff, !in_map_iff.
    split.
    + intros [(r & E & Hr) | [(s & E & Hs) | ([d' ws] & E & He)]].
      * left. now exists r.
      * right. left. now exists s.
      * right. right. simpl in E. subst d'. now exists ws.
    + intros [(r & Hr & E) | [(s & Hs & E) | (ws & He)]].
      * left. now exists r.
      * right. left. now exists s.
      * right. right. now exists (d, ws).
  - rewrite <- (length_map DailyMetrics.date result).
    apply Permutation_length, NoDup_Permutation.
    + exact ND'.
    + apply NoDup_nodup.
    + intros d. rewrite Hin, nodup_In. tauto.
Qed.

Lemma field_of_result formatDate localeCompare recoveries sleeps workouts
    (field : DailyMetrics.t -> option Q) (m : DailyMetrics.t) :
  In m (WhoopAdapter.toDailyMetrics formatDate localeCompare recoveries sleeps workouts) ->
  field m =
  fieldAt field (DailyMetrics.date m) (builtMap formatDate recoveries sleeps workouts).
Proof.
  intros Hin.
  apply (Permutation_in _
           (Permutation_sym
              (toDailyMetrics_permutation formatDate localeCompare
                 recoveries sleeps workouts))) in Hin.
  unfold JsMap.values in Hin. apply in_map_iff in Hin.
  destruct Hin as ([k o] & E & He). simpl in E. subst o.
  pose proof (keyedByDate_builtMap formatDate recoveries sleeps workouts) as K.
  unfold keyedByDate in K. rewrite Forall_forall in K.
  pose proof (K _ He) as Hk. simpl in Hk. subst k.
  unfold fieldAt.
  rewrite (get_of_in _ _ _ (NoDup_keys_builtMap formatDate recoveries sleeps workouts) He).
  reflexivity.
Qed.

(** X17.  When several responses fall on one date the last one wins: the
    heart-rate variability of a returned record is that of the last recovery
    of its date, its sleep that of the last sleep of its date, its load that
    of the last workout group of its date; a reading with no response on
    that date is [null]. *)
Theorem toDailyMetrics_last_response_wins
    (formatDate : string -> string) (localeCompare : string -> string -> Z)
    (recoveries : list WhoopRecoveryResponse.t)
    (sleeps : list WhoopSleepResponse.t)
    (workouts : list (string * list WhoopWorkoutResponse.t))
    (m : DailyMetrics.t) :
  In m (WhoopAdapter.toDailyMetrics formatDate localeCompare recoveries sleeps workouts) ->
  DailyMetrics.hrv m =
    match lastMatching
            (fun r => String.eqb (formatDate (WhoopRecoveryResponse.created_at r))
                        (DailyMetrics.date m)) recoveries with
    | Some r => WhoopAdapter.extractHRV r
    | None => None
    end /\
  DailyMetrics.sleep m =
    match lastMatching
            (fun s => String.eqb (formatDate (WhoopSleepResponse.start s))
                        (DailyMetrics.date m)) sleeps with
    | Some s => WhoopAdapter.extractSleep s
    | None => None
    end /\
  DailyMetrics.load m =
    match lastMatching (fun e => String.eqb (fst e) (DailyMetrics.date m)) workouts with
    | Some e => WhoopAdapter.extractLoad (snd e)
    | None => None
    end.
Proof.
  intros Hin.
  rewrite (field_of_result _ _ _ _ _ DailyMetrics.hrv m Hin).
  rewrite (field_of_result _ _ _ _ _ DailyMetrics.sleep m Hin).
  rewrite (field_of_result _ _ _ _ _ DailyMetrics.load m Hin).
  rewrite builtMap_recordAll.
  set (d := DailyMetrics.date m).
  repeat split.
  - rewrite (fieldAt_recordAll_kept _ _ DailyMetrics.hrv)
      by (intros; reflexivity).
    rewrite (fieldAt_recordAll_kept _ _ DailyMetrics.hrv)
      by (intros; reflexivity).
    rewrite (fieldAt_recordAll_assigned _ _ DailyMetrics.hrv WhoopAdapter.extractHRV)
      by (intros; reflexivity).
    reflexivity.
  - rewrite (fieldAt_recordAll_kept _ _ DailyMetrics.sleep)
      by (intros; reflexivity).
    rewrite (fieldAt_recordAll_assigned _ _ DailyMetrics.sleep WhoopAdapter.extractSleep)
      by (intros; reflexivity).
    rewrite (fieldAt_recordAll_kept _ _ DailyMetrics.sleep)
      by (intros; reflexivity).
    reflexivity.
  - rewrite (fieldAt_recordAll_assigned _ _ DailyMetrics.load
               (fun e => WhoopAdapter.extractLoad (snd e)))
      by (intros; reflexivity).
    rewrite !(fieldAt_recordAll_kept _ _ DailyMetrics.load)
      by (intros; reflexivity).
    reflexivity.
Qed.

Lemma toDailyMetrics_last_response_wins_witness :
  let m := {| DailyMetrics.date := "2024-01-02"; DailyMetrics.hrv := Some 50%Q;
              DailyMetrics.sleep := None; DailyMetrics.load := Some 14.2%Q |} in
  In m (WhoopAdapter.toDailyMetrics isoDay codeCompare
          sampleRecoveries sampleSleeps sampleWorkouts) /\
  DailyMetrics.hrv m =
    WhoopAdapter.extractHRV (sampleRecovery "2024-01-02T09:00:00Z" (Some 70%Q) (Some 50%Q)).
Proof.
  cbv zeta.
  match goal with |- ?A /\ _ => assert (H : A) by (vm_compute; right; left; reflexivity) end.
  split; [exact H|].
  exact (proj1 (toDailyMetrics_last_response_wins isoDay codeCompare
                  sampleRecoveries sampleSleeps sampleWorkouts _ H)).
Defined.

(** X18.  For a consistent comparator (of two dates at least one is not
    placed behind the other, and the order it gives is transitive) the
    result is in ascending order of date: no record is placed by the
    comparator behind a record that comes later in the result. *)
Theorem toDailyMetrics_sorted_by_date
    (formatDate : string -> string) (localeCompare : string -> string -> Z)
    (recoveries : list WhoopRecoveryResponse.t)
    (sleeps : list WhoopSleepResponse.t)
    (workouts : list (string * list WhoopWorkoutResponse.t)) :
  (forall a b, 0 < localeCompare a b -> localeCompare b a <= 0) ->
  (forall a b c, localeCompare a b <= 0 -> localeCompare b c <= 0 ->
                 localeCompare a c <= 0) ->
  StronglySorted
    (fun x y => localeCompare (DailyMetrics.date x) (DailyMetrics.date y) <= 0)
    (WhoopAdapter.toDailyMetrics formatDate localeCompare recoveries sleeps workouts).
Proof.
  intros T Tr. apply Sorted_StronglySorted.
  - intros x y z. apply Tr.
  - unfold WhoopAdapter.toDailyMetrics.
    apply (sortBy_sorted
             (fun a b => localeCompare (DailyMetrics.date a) (DailyMetrics.date b))).
    intros a b. apply T.
Qed.

Lemma codeCompare_le_iff (a b : string) :
  codeCompare a b <= 0 <-> String.compare a b <> Gt.
Proof.
  unfold codeCompare. destruct (String.compare a b); split; intros H;
    try lia; try discriminate. now exfalso.
Qed.

Lemma codeCompare_total (a b : string) : 0 < codeCompare a b -> codeCompare b a <= 0.
Proof.
  unfold codeCompare. rewrite (String.compare_antisym a b).
  destruct (String.compare b a); simpl; lia.
Qed.

Lemma string_compare_trans (a b c : string) :
  String.compare a b <> Gt -> String.compare b c <> Gt -> String.compare a c <> Gt.
Proof.
  revert b c. induction a as [| x a IH]; intros [| y b] [| z c]; simpl;
    try congruence.
  unfold Ascii.compare.
  destruct (N.compare_spec (Ascii.N_of_ascii x) (Ascii.N_of_ascii y)) as [E1 | L1 | G1];
    destruct (N.compare_spec (Ascii.N_of_ascii y) (Ascii.N_of_ascii z)) as [E2 | L2 | G2];
    destruct (N.compare_spec (Ascii.N_of_ascii x) (Ascii.N_of_ascii z)) as [E3 | L3 | G3];
    intros H1 H2; try congruence; try (exfalso; lia).
  now apply (IH b c).
Qed.

Lemma codeCompare_trans (a b c : string) :
  codeCompare a b <= 0 -> codeCompare b c <= 0 -> codeCompare a c <= 0.
Proof. rewrite !codeCompare_le_iff. apply string_compare_trans. Qed.

Lemma toDailyMetrics_sorted_by_date_witness :
  (forall a b, 0 < codeCompare a b -> codeCompare b a <= 0) /\
  (forall a b c, codeCompare a b <= 0 -> codeCompare b c <= 0 -> codeCompare a c <= 0) /\
  StronglySorted
    (fun x y => codeCompare (DailyMetrics.date x) (DailyMetrics.date y) <= 0)
    (WhoopAdapter.toDailyMetrics isoDay codeCompare
       sampleRecoveries sampleSleeps sampleWorkouts).
Proof.
  split; [exact codeCompare_total|]. split; [exact codeCompare_trans|].
  exact (toDailyMetrics_sorted_by_date isoDay codeCompare
           sampleRecoveries sampleSleeps sampleWorkouts
           codeCompare_total codeCompare_trans).
Defined.

(** ** The adapter in front of the engine *)

(** X19.  Fed with the adapter's result, the engine fails for want of history
    exactly when the responses cover fewer than two distinct dates, the
    baseline calculation fails exactly when there is no response at all, and
    with two or more distinct dates the engine returns a decision. *)
Theorem engine_on_adapter_result
    (formatDate : string -> string) (localeCompare : string -> string -> Z)
    (recoveries : list WhoopRecoveryResponse.t)
    (sleeps : list WhoopSleepResponse.t)
    (workouts : list (string * list WhoopWorkoutResponse.t)) :
  let result :=
    WhoopAdapter.toDailyMetrics formatDate localeCompare recoveries sleeps workouts in
  let distinctDates :=
    List.length (nodup string_dec (inputDates formatDate recoveries sleeps workouts)) in
  (determineDecisionPhase result = inl InsufficientHistory <-> (distinctDates < 2)%nat) /\
  ((exists r, determineDecisionPhase result = inr r) <-> (2 <= distinctDates)%nat) /\
  (calculateBaseline result = inl EmptyDataset <->
   recoveries = [] /\ sleeps = [] /\ workouts = []).
Proof.
  intros result distinctDates.
  assert (Hlen : List.length result = distinctDates).
  { subst result distinctDates.
    pose proof (toDailyMetrics_dates formatDate localeCompare recoveries sleeps workouts) as P.
    pose proof (NoDup_keys_builtMap formatDate recoveries sleeps workouts) as ND.
    rewrite <- (length_map DailyMetrics.date).
    apply Permutation_length, NoDup_Permutation.
    - eapply Permutation_NoDup; eauto.
    - apply NoDup_nodup.
    - intros d. rewrite nodup_In, <- in_keys_builtMap.
      split; apply Permutation_in; [apply Permutation_sym|]; exact P. }
  assert (Hshort : (distinctDates < 2)%nat ->
                   determineDecisionPhase result = inl InsufficientHistory).
  { intros L. apply determineDecisionPhase_short. unfold Array.length. lia. }
  assert (Hlong : (2 <= distinctDates)%nat ->
                  exists r, determineDecisionPhase result = inr r).
  { intros G. rewrite <- Hlen in G.
    destruct (determineDecisionPhase_spec result G) as (y & t & b & _ & _ & _ & Hr).
    eexists. exact Hr. }
  split; [|split].
  - split; [|exact Hshort]. intros E.
    destruct (Compare_dec.le_lt_dec 2 distinctDates) as [G | L]; [|exact L].
    destruct (Hlong G) as [r Hr]. rewrite Hr in E. discriminate.
  - split; [|exact Hlong]. intros [r Hr].
    destruct (Compare_dec.le_lt_dec 2 distinctDates) as [G | L]; [exact G|].
    rewrite (Hshort L) in Hr. discriminate.
  - assert (Hnil : result = [] <-> recoveries = [] /\ sleeps = [] /\ workouts = []).
    { rewrite <- length_zero_iff_nil, Hlen. subst distinctDates.
      rewrite length_zero_iff_nil. split.
      - intros E.
        assert (E' : inputDates formatDate recoveries sleeps workouts = []).
        { destruct (inputDates formatDate recoveries sleeps workouts) as [| d ds] eqn:Ed;
            [reflexivity|].
          assert (In d (nodup string_dec (d :: ds))) by (apply nodup_In; now left).
          rewrite E in H. contradiction. }
        unfold inputDates in E'.
        apply app_eq_nil in E'. destruct E' as [E1 E2].
        apply app_eq_nil in E2. destruct E2 as [E2 E3].
        apply map_eq_nil in E1, E2, E3. tauto.
      - intros (-> & -> & ->). reflexivity. }
    rewrite <- Hnil. split.
    + intros E. destruct result as [| m ms]; [reflexivity|].
      rewrite calculateBaseline_nonempty in E by discriminate. discriminate.
    + intros ->. reflexivity.
Qed.

(** ** What the adapter reads *)

Lemma recordAll_pointwise {X X' : Type}
    (key : X -> string) (assign : X -> DailyMetrics.t -> DailyMetrics.t)
    (key' : X' -> string) (assign' : X' -> DailyMetrics.t -> DailyMetrics.t)
    (items : list X) (items' : list X') :
  Forall2 (fun x x' => key x = key' x' /\ assign x = assign' x') items items' ->
  forall m, recordAll key assign items m = recordAll key' assign' items' m.
Proof.
  induction 1 as [| x x' items items' [Hk Ha] _ IH]; intros m; [reflexivity|].
  unfold recordAll in *. simpl. rewrite Hk, Ha. apply IH.
Qed.

Lemma map_eq_Forall2 {X Y : Type} (f : X -> Y) (l l' : list X) :
  map f l = map f l' -> Forall2 (fun x x' => f x = f x') l l'.
Proof.
  revert l'. induction l as [| x l IH]; intros [| x' l'] E; try discriminate.
  - constructor.
  - injection E as E1 E2. constructor; [exact E1 | now apply IH].
Qed.

Lemma extractLoad_strains (ws ws' : list WhoopWorkoutResponse.t) :
  map WhoopAdapter.workoutStrain ws = map WhoopAdapter.workoutStrain ws' ->
  WhoopAdapter.extractLoad ws = WhoopAdapter.extractLoad ws'.
Proof.
  intros E. unfold WhoopAdapter.extractLoad, Array.length.
  rewrite E. apply (f_equal (@List.length _)) in E. rewrite !length_map in E.
  rewrite E. reflexivity.
Qed.

(** X20.  The adapter reads only the time stamp and the heart-rate variability of
    a recovery, the start and the total sleep time of a sleep, and the
    strains of a workout group: responses that agree on these give the same
    daily metrics, whatever their recovery scores and other fields are. *)
Theorem toDailyMetrics_reads_only_raw_metrics
    (formatDate : string -> string) (localeCompare : string -> string -> Z)
    (recoveries recoveries' : list WhoopRecoveryResponse.t)
    (sleeps sleeps' : list WhoopSleepResponse.t)
    (workouts workouts' : list (string * list WhoopWorkoutResponse.t)) :
  map (fun r => (WhoopRecoveryResponse.created_at r,
                 WhoopRecoveryResponse.hrv_rmssd_milli (WhoopRecoveryResponse.score r)))
      recoveries =
  map (fun r => (WhoopRecoveryResponse.created_at r,
                 WhoopRecoveryResponse.hrv_rmssd_milli (WhoopRecoveryResponse.score r)))
      recoveries' ->
  map (fun s => (WhoopSleepResponse.start s, WhoopAdapter.totalSleepTime s)) sleeps =
  map (fun s => (WhoopSleepResponse.start s, WhoopAdapter.totalSleepTime s)) sleeps' ->
  map (fun e => (fst e, map WhoopAdapter.workoutStrain (snd e))) workouts =
  map (fun e => (fst e, map WhoopAdapter.workoutStrain (snd e))) workouts' ->
  WhoopAdapter.toDailyMetrics formatDate localeCompare recoveries sleeps workouts =
  WhoopAdapter.toDailyMetrics formatDate localeCompare recoveries' sleeps' workouts'.
Proof.
  intros ER ES EW.
  assert (E : builtMap formatDate recoveries sleeps workouts =
              builtMap formatDate recoveries' sleeps' workouts').
  { rewrite !builtMap_recordAll.
    apply map_eq_Forall2 in ER, ES, EW.
    assert (HR : forall m,
              recordAll (fun r => formatDate (WhoopRecoveryResponse.created_at r))
                (fun r => WhoopAdapter.assignHrv (WhoopAdapter.extractHRV r))
                recoveries m =
              recordAll (fun r => formatDate (WhoopRecoveryResponse.created_at r))
                (fun r => WhoopAdapter.assignHrv (WhoopAdapter.extractHRV r))
                recoveries' m).
    { apply recordAll_pointwise.
      eapply Forall2_impl; [|exact ER]. intros r r' H. simpl in H.
      injection H as H1 H2. split; [now rewrite H1|].
      unfold WhoopAdapter.extractHRV. now rewrite H2. }
    assert (HS : forall m,
              recordAll (fun s => formatDate (WhoopSleepResponse.start s))
                (fun s => WhoopAdapter.assignSleep (WhoopAdapter.extractSleep s))
                sleeps m =
              recordAll (fun s => formatDate (WhoopSleepResponse.start s))
                (fun s => WhoopAdapter.assignSleep (WhoopAdapter.extractSleep s))
                sleeps' m).
    { apply recordAll_pointwise.
      eapply Forall2_impl; [|exact ES]. intros s s' H. simpl in H.
      injection H as H1 H2. split; [now rewrite H1|].
      unfold WhoopAdapter.extractSleep. now rewrite H2. }
    assert (HW : forall m,
              recordAll fst
                (fun e => WhoopAdapter.assignLoad (WhoopAdapter.extractLoad (snd e)))
                workouts m =
              recordAll fst
                (fun e => WhoopAdapter.assignLoad (WhoopAdapter.extractLoad (snd e)))
                workouts' m).
    { apply recordAll_pointwise.
      eapply Forall2_impl; [|exact EW]. intros e e' H. simpl in H.
      injection H as H1 H2. split; [exact H1|].
      now rewrite (extractLoad_strains _ _ H2). }
    rewrite HR, HS, HW. reflexivity. }
  unfold WhoopAdapter.toDailyMetrics. fold (builtMap formatDate recoveries sleeps workouts).
  fold (builtMap formatDate recoveries' sleeps' workouts').
  rewrite E. reflexivity.
Qed.

Lemma toDailyMetrics_reads_only_raw_metrics_witness :
  let unscored :=
    [ sampleRecovery "2024-01-02T06:00:00Z" None (Some 48%Q);
      sampleRecovery "2024-01-01T06:00:00Z" None (Some 45%Q);
      sampleRecovery "2024-01-02T09:00:00Z" None (Some 50%Q) ] in
  WhoopAdapter.toDailyMetrics isoDay codeCompare sampleRecoveries sampleSleeps sampleWorkouts =
  WhoopAdapter.toDailyMetrics isoDay codeCompare unscored sampleSleeps sampleWorkouts.
Proof.
  cbv zeta.
  apply (toDailyMetrics_reads_only_raw_metrics isoDay codeCompare); reflexivity.
Defined.

(** ** The extractors *)

Local Open Scope Q_scope.

Lemma in_filterNotNull {A : Type} (l : list (option A)) (a : A) :
  In a (Array.filterNotNull l) <-> In (Some a) l.
Proof.
  induction l as [| [b|] l IH]; simpl.
  - tauto.
  - rewrite IH. split; intros [H | H]; auto; left; congruence.
  - rewrite IH. split; [auto | intros [H | H]; [discriminate | exact H]].
Qed.

Lemma fold_numberMax (l : list Q) (a : Q) :
  In (fold_left numberMax l a) (a :: l) /\
  a <= fold_left numberMax l a /\
  Forall (fun x => x <= fold_left numberMax l a) l.
Proof.
  revert a. induction l as [| x l IH]; intros a; simpl.
  - split; [now left|]. split; [lra | constructor].
  - destruct (IH (numberMax a x)) as (Hin & Hle & Hall).
    assert (Hmax : a <= numberMax a x /\ x <= numberMax a x /\
                   (numberMax a x = a \/ numberMax a x = x)).
    { unfold numberMax. destruct (Qlt_le_dec a x); repeat split; auto; lra. }
    destruct Hmax as (Ha & Hx & Hor).
    split; [|split].
    + destruct Hin as [Hin | Hin]; [|auto].
      rewrite <- Hin. destruct Hor as [-> | ->]; auto.
    + lra.
    + constructor; [lra | exact Hall].
Qed.

(** X14.  [extractLoad] returns the largest strain of the day's workouts, not
    their sum: the value it returns is the strain of one of the workouts and
    no workout has a larger one; and it returns [null] exactly when no
    workout of the day carries a strain, an empty day included. *)
Theorem extractLoad_is_maximum (workouts : list WhoopWorkoutResponse.t) :
  (WhoopAdapter.extractLoad workouts = None <->
   forall w, In w workouts -> WhoopAdapter.workoutStrain w = None) /\
  (forall load,
     WhoopAdapter.extractLoad workouts = Some load ->
     (exists w, In w workouts /\ WhoopAdapter.workoutStrain w = Some load) /\
     (forall w s, In w workouts -> WhoopAdapter.workoutStrain w = Some s -> s <= load)).
Proof.
  assert (Hin : forall s,
            In s (Array.filterNotNull (map WhoopAdapter.workoutStrain workouts)) <->
            exists w, In w workouts /\ WhoopAdapter.workoutStrain w = Some s).
  { intros s. rewrite in_filterNotNull, in_map_iff.
    split; intros (w & H1 & H2); exists w; tauto. }
  unfold WhoopAdapter.extractLoad.
  destruct (Array.length workouts =? 0)%Z eqn:E0.
  - apply Z.eqb_eq, length_zero_iff in E0. subst workouts.
    split; [split; [intros _ w [] | reflexivity] | discriminate].
  - destruct (Array.filterNotNull (map WhoopAdapter.workoutStrain workouts))
      as [| first others] eqn:Es.
    + split; [|discriminate]. split; [|reflexivity].
      intros _ w Hw. destruct (WhoopAdapter.workoutStrain w) as [s|] eqn:Ew; [|reflexivity].
      exfalso. apply (proj2 (Hin s)). now exists w.
    + destruct (fold_numberMax others first) as (Hmem & Hfirst & Hall).
      split.
      * split; [discriminate|]. intros H. exfalso.
        destruct (proj1 (Hin first) (or_introl eq_refl)) as (w & Hw & Ew).
        rewrite (H w Hw) in Ew. discriminate.
      * intros load E. injection E as <-. split.
        -- apply Hin. exact Hmem.
        -- intros w s Hw Ew.
           assert (Hs : In s (first :: others)) by (apply Hin; now exists w).
           destruct Hs as [<- | Hs]; [exact Hfirst|].
           rewrite Forall_forall in Hall. now apply Hall.
Qed.

Lemma extractLoad_is_maximum_witness :
  let workouts :=
    [ sampleWorkout "2024-01-02T10:00:00Z" (Some 12.5);
      sampleWorkout "2024-01-02T18:00:00Z" None;
      sampleWorkout "2024-01-02T19:00:00Z" (Some 14.2) ] in
  WhoopAdapter.extractLoad workouts = Some 14.2 /\
  exists w, In w workouts /\ WhoopAdapter.workoutStrain w = Some 14.2.
Proof.
  cbv zeta.
  match goal with |- ?A /\ _ => assert (H : A) by reflexivity end.
  split; [exact H|].
  exact (proj1 (proj2 (extractLoad_is_maximum _) 14.2 H)).
Defined.


(** Seven hours and thirty-three minutes are reported as 7.6 hours (the
    half-way case goes up); a sleep of under three minutes as 0 hours, not
    as a missing reading. *)
Example extractSleep_examples :
  WhoopAdapter.extractSleep (sampleSleep "s" (Some 27180000)) = Some (inject_Z 76 / 10) /\
  WhoopAdapter.extractSleep (sampleSleep "s" (Some 170000)) = Some (inject_Z 0 / 10) /\
  WhoopAdapter.extractSleep (sampleSleep "s" (Some 0)) = None.
Proof. repeat split. Qed.

(* ================================================================= *)
(** * What a decision can say *)

Local Open Scope Z_scope.

Lemma determineDecisionPhase_returns (metrics : list DailyMetrics.t) (r : Decision.t) :
  determineDecisionPhase metrics = inr r ->
  exists yesterday today baseline,
    nth_error metrics (List.length metrics - 2) = Some yesterday /\
    nth_error metrics (List.length metrics - 1) = Some today /\
    calculateBaseline metrics = inr baseline /\
    r = phaseDecision
          (consecutiveLower (dayComparison today baseline)
                            (dayComparison yesterday baseline))
          (consecutiveHigher (dayComparison today baseline)
                             (dayComparison yesterday baseline))
          (dayComparison today baseline).
Proof.
  intros Hr.
  destruct (Compare_dec.le_lt_dec 2 (List.length metrics)) as [G | L].
  - destruct (determineDecisionPhase_spec metrics G) as (y & t & b & Hy & Ht & Hb & H).
    exists y, t, b. repeat split; try assumption. congruence.
  - rewrite determineDecisionPhase_short in Hr by (unfold Array.length; lia).
    discriminate.
Qed.

(** X21.  A decision carries one of five reasons: with phase [OBSERVE] the
    reason is "Observing current state."; with phase [CONSIDER_ADJUSTMENT]
    it is the recovery sentence or the load sentence with the count 2 or the
    count 3. *)
Theorem reason_is_one_of_five (metrics : list DailyMetrics.t) (r : Decision.t) :
  determineDecisionPhase metrics = inr r ->
  (Decision.phase r = OBSERVE /\
   Decision.reason r = "Observing current state."%string) \/
  (Decision.phase r = CONSIDER_ADJUSTMENT /\
   In (Decision.reason r)
      [ "2 recovery signals have been outside baseline for 2 consecutive days.";
        "3 recovery signals have been outside baseline for 2 consecutive days.";
        "2 load signals have been outside baseline for 2 consecutive days.";
        "3 load signals have been outside baseline for 2 consecutive days." ]%string).
Proof.
  intros Hr.
  destruct (determineDecisionPhase_returns metrics r Hr) as (y & t & b & _ & _ & _ & ->).
  set (tc := dayComparison t b). set (yc := dayComparison y b).
  destruct (counts_disjoint tc yc) as (Bl & Bh & _).
  set (cl := consecutiveLower tc yc) in *. set (ch := consecutiveHigher tc yc) in *.
  destruct (Z_lt_le_dec cl 2) as [Ll | Ll];
    [destruct (Z_lt_le_dec ch 2) as [Lh | Lh]|].
  - left. rewrite (phaseDecision_observe cl ch tc Ll Lh). split; reflexivity.
  - right. rewrite (phaseDecision_higher cl ch tc Ll Lh). split; [reflexivity|].
    simpl Decision.reason.
    assert (E : ch = 2 \/ ch = 3) by lia.
    destruct E as [-> | ->]; simpl; tauto.
  - right. rewrite (phaseDecision_lower cl ch tc Ll). split; [reflexivity|].
    simpl Decision.reason.
    assert (E : cl = 2 \/ cl = 3) by lia.
    destruct E as [-> | ->]; simpl; tauto.
Qed.

Lemma reason_is_one_of_five_witness :
  exists r,
    determineDecisionPhase mockDailyMetrics = inr r /\
    ((Decision.phase r = OBSERVE /\
      Decision.reason r = "Observing current state."%string) \/
     (Decision.phase r = CONSIDER_ADJUSTMENT /\
      In (Decision.reason r)
         [ "2 recovery signals have been outside baseline for 2 consecutive days.";
           "3 recovery signals have been outside baseline for 2 consecutive days.";
           "2 load signals have been outside baseline for 2 consecutive days.";
           "3 load signals have been outside baseline for 2 consecutive days." ]%string)).
Proof.
  eexists. split; [reflexivity|].
  apply (reason_is_one_of_five mockDailyMetrics). reflexivity.
Defined.

(** X22.  The page shows "No data" (icon [—]) for a metric exactly when the
    last record of the input has no reading of it: the comparison a decision
    returns is absent for the metrics today has no reading of, and for no
    other. *)
Theorem no_data_shown_iff_reading_absent (metrics : list DailyMetrics.t)
    (r : Decision.t) :
  determineDecisionPhase metrics = inr r ->
  exists today,
    nth_error metrics (List.length metrics - 1) = Some today /\
    forall metric,
      let shown := ComparisonResult.get (Decision.comparison r) metric in
      (shown = None <-> reading metric today = None) /\
      (App.getComparisonText shown = "No data"%string <-> reading metric today = None) /\
      (App.getComparisonIcon shown = "—"%string <-> reading metric today = None).
Proof.
  intros Hr.
  destruct (determineDecisionPhase_returns metrics r Hr) as (y & t & b & _ & Ht & _ & ->).
  exists t. split; [exact Ht|].
  intros metric shown. subst shown.
  rewrite phaseDecision_comparison, dayComparison_get.
  pose proof (compareToBaseline_absent (reading metric t) (baselineFor metric b)
                defaultTolerancePercent) as Habs.
  destruct (compareToBaseline (reading metric t) (baselineFor metric b)
              defaultTolerancePercent) as [[ | | ]|]; simpl;
    repeat split; intros H; try discriminate; try reflexivity;
    try (apply Habs; reflexivity);
    try (apply Habs in H; discriminate).
Qed.

Lemma no_data_shown_iff_reading_absent_witness :
  let gap := {| DailyMetrics.date := "2024-01-14"; DailyMetrics.hrv := None;
                DailyMetrics.sleep := Some 7.5%Q; DailyMetrics.load := None |} in
  exists r today,
    determineDecisionPhase (mockDailyMetrics ++ [gap]) = inr r /\
    nth_error (mockDailyMetrics ++ [gap]) 13 = Some today /\
    (App.getComparisonText (ComparisonResult.get (Decision.comparison r) key_hrv)
       = "No data"%string <-> reading key_hrv today = None).
Proof.
  cbv zeta. eexists.
  match goal with
  | |- exists today, ?D = inr ?r /\ _ =>
      assert (H : D = inr r) by reflexivity
  end.
  destruct (no_data_shown_iff_reading_absent _ _ H) as (today & Ht & Hm).
  exists today. split; [exact H|]. split; [exact Ht|].
  exact (proj1 (proj2 (Hm key_hrv))).
Defined.

(* ================================================================= *)
(** * The arithmetic in binary64 *)

(** ** Comparisons and the comparator of the sort *)

Section FloatOrder.
Local Open Scope float_scope.

Lemma SFcompare_antisym (a b : spec_float) (c : comparison) :
  SFcompare a b = Some c -> SFcompare b a = Some (CompOpp c).
Proof.
  destruct a as [sa | sa | | sa ma ea], b as [sb | sb | | sb mb eb]; simpl;
    try discriminate;
    try (intros H; injection H as <-; reflexivity);
    try (destruct sa; intros H; injection H as <-; reflexivity);
    try (destruct sb; intros H; injection H as <-; reflexivity);
    try (destruct sa, sb; intros H; injection H as <-; reflexivity).
  change (PosDef.Pos.compare_cont Eq ma mb) with (Pos.compare ma mb).
  change (PosDef.Pos.compare_cont Eq mb ma) with (Pos.compare mb ma).
  rewrite (Z.compare_antisym ea eb), (Pos.compare_antisym ma mb).
  destruct sa, sb; intros H; injection H as <-;
    destruct (ea ?= eb)%Z; simpl; try reflexivity;
    destruct (ma ?= mb)%positive; reflexivity.
Qed.

Lemma ltb_irrefl (x : float) : (x <? x) = false.
Proof.
  rewrite ltb_spec. unfold SFltb.
  destruct (SFcompare (Prim2SF x) (Prim2SF x)) as [[ | | ]|] eqn:E; try reflexivity.
  pose proof (SFcompare_antisym _ _ _ E) as E'. rewrite E in E'. discriminate.
Qed.

Lemma leb_not_ltb (x y : float) : (x <=? y) = true -> (y <? x) = false.
Proof.
  rewrite leb_spec, ltb_spec. unfold SFleb, SFltb.
  destruct (SFcompare (Prim2SF x) (Prim2SF y)) as [[ | | ]|] eqn:E; try discriminate;
    intros _; rewrite (SFcompare_antisym _ _ _ E); reflexivity.
Qed.





End FloatOrder.

(** ** The classifier *)

Section FloatClassifier.
Local Open Scope float_scope.

(** C3 (as amended).  [compareToBaseline] returns absent exactly when the
    value is absent.  Otherwise, with the tolerance [b * (p / 100)] and the
    bounds [b - tolerance] and [b + tolerance] as the code computes them,
    each operation rounded to binary64, it returns [lower] when the value
    is below the lower bound; failing that, [higher] when it is above the
    upper bound; failing both, [within].  Whenever the lower bound does not
    exceed the upper bound, the two bounds themselves classify as
    [within]. *)
Theorem compareToBaseline_binary64 (v : option float) (b p : float) :
  let tolerance := b * (p / 100) in
  let lowerBound := b - tolerance in
  let upperBound := b + tolerance in
  (Double.compareToBaseline v b p = None <-> v = None) /\
  (forall x, v = Some x ->
     ((x <? lowerBound) = true -> Double.compareToBaseline v b p = Some lower) /\
     ((x <? lowerBound) = false -> (upperBound <? x) = true ->
        Double.compareToBaseline v b p = Some higher) /\
     ((x <? lowerBound) = false -> (upperBound <? x) = false ->
        Double.compareToBaseline v b p = Some within)) /\
  ((lowerBound <=? upperBound) = true ->
     Double.compareToBaseline (Some lowerBound) b p = Some within /\
     Double.compareToBaseline (Some upperBound) b p = Some within).
Proof.
  intros tolerance lowerBound upperBound. split; [|split].
  - unfold Double.compareToBaseline. destruct v as [x|]; [|tauto].
    destruct (x <? _); [|destruct (_ <? x)]; split; discriminate.
  - intros x ->. unfold Double.compareToBaseline.
    fold tolerance. fold lowerBound. fold upperBound.
    repeat split; intros H; try intros H'; rewrite H; try rewrite H'; reflexivity.
  - intros Hle. unfold Double.compareToBaseline.
    fold tolerance. fold lowerBound. fold upperBound.
    rewrite !ltb_irrefl, (leb_not_ltb _ _ Hle). split; reflexivity.
Qed.

Lemma compareToBaseline_binary64_witness :
  (47 - 47 * (5 / 100) <=? 47 + 47 * (5 / 100)) = true /\
  Double.compareToBaseline (Some (47 - 47 * (5 / 100))) 47 5 = Some within /\
  Double.compareToBaseline (Some (47 + 47 * (5 / 100))) 47 5 = Some within.
Proof.
  assert (H : (47 - 47 * (5 / 100) <=? 47 + 47 * (5 / 100)) = true) by reflexivity.
  split; [exact H|].
  exact (proj2 (proj2 (compareToBaseline_binary64 (Some 38) 47 5)) H).
Defined.

(** The reading 44.65 is, as a binary64 number, strictly below
    [47 - 47 * 5 / 100] computed exactly, and the code classifies it as
    [within]: its own lower bound is rounded down onto the reading.  The
    decimal boundary 7.98 of the baseline 7.6 classifies as [higher].  And
    with a negative baseline the bound [b - t] classifies as [higher] and
    [b + t] as [lower]. *)
Lemma compareToBaseline_binary64_counterexample :
  (exists v b : Q,
     Double.exactValue 44.65 = Some v /\ Double.exactValue 47 = Some b /\
     (v < b - b * 5 / 100)%Q /\
     Double.compareToBaseline (Some 44.65) 47 5 = Some within) /\
  Double.compareToBaseline (Some 7.98) 7.6 5 = Some higher /\
  Double.compareToBaseline (Some (-100 - -100 * 5 / 100)) (-100) 5 = Some higher /\
  Double.compareToBaseline (Some (-100 + -100 * 5 / 100)) (-100) 5 = Some lower.
Proof.
  split; [|repeat split].
  eexists. eexists. split; [vm_compute; reflexivity|].
  split; [vm_compute; reflexivity|]. split; reflexivity.
Qed.

End FloatClassifier.

(** ** The sort and the median *)

Section FloatMedian.
Local Open Scope float_scope.












(** The thirteen mock records in binary64: the medians are array elements
    and the readings are far from the bounds, so the decision is the one
    computed with exact numbers. *)
Example mock_scenario_binary64 :
  Double.calculateBaseline Double.mockDailyMetrics
    = inr {| Double.Baseline.hrv := 47; Double.Baseline.sleep := 7.8;
             Double.Baseline.load := 14.0 |} /\
  Double.determineDecisionPhase Double.mockDailyMetrics =
  inr {| Decision.phase := CONSIDER_ADJUSTMENT;
         Decision.comparison :=
           {| ComparisonResult.hrv := Some lower;
              ComparisonResult.sleep := Some lower;
              ComparisonResult.load := Some higher |};
         Decision.reason :=
           "2 recovery signals have been outside baseline for 2 consecutive days." |}.
Proof. split; reflexivity. Qed.

End FloatMedian.

(** The verdict depends on the unit: 2.09 against the baseline 2.2 is
    [lower], the same reading and baseline in a unit ten times smaller are
    [within]. *)
Example verdict_depends_on_unit :
  Double.compareToBaseline (Some 2.09%float) 2.2%float 5%float = Some lower /\
  Double.compareToBaseline (Some 20.9%float) 22%float 5%float = Some within.
Proof. split; reflexivity. Qed.
